(** * Thrust_Stand_DBF.ino: the session-indexed acquisition-and-logging sketch

    A shallow embedding of the Arduino Nano sketch [Thrust_Stand_DBF.ino]
    and the properties of its session counter, filename derivation, sample
    loop, dual-sink logging, status light and display padding.

    The sketch is sequential code over a handful of globals and a set of
    device libraries.  The globals and the EEPROM form the [state]; every call
    into a device library is recorded as an [event] in the state's [trace];
    what the devices answer (does the card open, did the tare time out, what
    does [millis()] return) is an explicit input.  [while (1);] is the
    [Halted] outcome of the sketch monad. *)

From Stdlib Require Import ZArith List String Ascii Bool Lia.
From Stdlib Require Import Floats.SpecFloat.
From Stdlib Require Import QArith Qpower.
From Stdlib Require Import Sorted.
Import ListNotations.

Local Open Scope Z_scope.

(** ** Machine integers of the ATmega328 *)

Module Int.

(** [long]: 32 bits, two's complement. *)
Definition LONG_MIN : Z := - 2 ^ 31.
Definition LONG_MAX : Z := 2 ^ 31 - 1.

Definition in_long (z : Z) : Prop := LONG_MIN <= z <= LONG_MAX.

(** The value a [long] holds after an arithmetic result [z] is stored in it. *)
Definition wrap_long (z : Z) : Z := (z + 2 ^ 31) mod 2 ^ 32 - 2 ^ 31.

(** [unsigned long]: 32 bits. *)
Definition wrap_ulong (z : Z) : Z := z mod 2 ^ 32.

(** Byte [k] (0 is the least significant) of the two's complement pattern. *)
Definition byte_of (z : Z) (k : Z) : Z := Z.land (Z.shiftr z (8 * k)) 255.

End Int.

(** ** Decimal rendering: [String(long)] and [String(unsigned long)] *)

Module Dec.

Definition digit (d : Z) : ascii := ascii_of_nat (Z.to_nat (48 + d)).

(** Least significant digit first, pushed in front of what is already
    rendered; ten rounds cover every 32-bit value. *)
Fixpoint utoa_rec (fuel : nat) (n : Z) (acc : string) : string :=
  match fuel with
  | O => acc
  | S fuel' =>
      let acc' := String (digit (n mod 10)) acc in
      if n / 10 =? 0 then acc' else utoa_rec fuel' (n / 10) acc'
  end.

Definition ultoa (n : Z) : string := utoa_rec 10 n EmptyString.

Definition ltoa (n : Z) : string :=
  if n <? 0 then String "-"%char (ultoa (- n)) else ultoa n.

Definition is_digit (c : ascii) : bool :=
  let n := Z.of_nat (nat_of_ascii c) in (48 <=? n) && (n <=? 57).

End Dec.

(** ** The EEPROM: a byte at every cell address, kept across resets *)

Module EEPROM.

Definition eeprom : Type := Z -> Z.

Definition read (e : eeprom) (a : Z) : Z := e a mod 256.

(** [EERef::update]: the cell holds the byte afterwards. *)
Definition update (e : eeprom) (a b : Z) : eeprom :=
  fun a' => if a' =? a then b mod 256 else e a'.

(** [EEPROM.get] of a 4-byte object: the bytes at [a .. a+3], the AVR being
    little-endian, as an unsigned pattern. *)
Definition get_bits (e : eeprom) (a : Z) : Z :=
  read e a + 2 ^ 8 * read e (a + 1) + 2 ^ 16 * read e (a + 2)
  + 2 ^ 24 * read e (a + 3).

(** [EEPROM.get(a, x)] for [long x]. *)
Definition get_long (e : eeprom) (a : Z) : Z := Int.wrap_long (get_bits e a).

(** [EEPROM.put(a, x)] for [long x]: the four bytes, lowest first. *)
Definition put_long (e : eeprom) (a : Z) (v : Z) : eeprom :=
  update (update (update (update e a (Int.byte_of v 0))
                    (a + 1) (Int.byte_of v 1))
            (a + 2) (Int.byte_of v 2))
    (a + 3) (Int.byte_of v 3).

End EEPROM.

(** ** Binary32 readings *)

Module F32.

Definition prec : Z := 24.
Definition emax : Z := 128.

(** A [float] of the sketch. *)
Definition float : Type := spec_float.

Definition valid (x : float) : bool := valid_binary prec emax x.

(** The conversion of an [int] constant in a comparison with a [float]. *)
Definition of_int (n : Z) : float := binary_normalize prec emax n 0 false.

(** [x < y] and [x > y] of C on floats: false as soon as one side is NaN. *)
Definition lt (x y : float) : bool := SFltb x y.
Definition gt (x y : float) : bool := SFltb y x.

(** The rational a finite float stands for. *)
Definition to_Q (x : float) : Q :=
  match x with
  | S754_finite s m e =>
      let v := if s then Z.neg m else Z.pos m in
      inject_Z v * Qpower 2 e
  | _ => 0%Q
  end.

(** The same value counted in units of 2^-149, the weight of the lowest
    bit a binary32 number can have. *)
Definition scaled (x : float) : Z :=
  match x with
  | S754_finite s m e => (if s then Z.neg m else Z.pos m) * 2 ^ (e + 149)
  | _ => 0
  end.

Definition is_finite (x : float) : bool :=
  match x with
  | S754_zero _ | S754_finite _ _ _ => true
  | _ => false
  end.

(** 7.5 = 15 * 2^-1 and 7500.5 = 15001 * 2^-1 in canonical form. *)
Definition f7_5 : float := S754_finite false 15728640 (-21).
Definition f7500_5 : float := S754_finite false 15361024 (-11).

End F32.

(** ** Devices, events and the state of the sketch *)

(** The two halves of the status light: [#define RED A1], [#define GREEN A2]. *)
Inductive pin : Type := RED | GREEN.

Inductive open_mode : Type := FILE_READ | FILE_WRITE.

(** One call into a device library, with what the device answered. *)
Inductive event : Type :=
| PinMode_output (p : pin)
| DigitalWrite (p : pin) (level : bool)
| Serial_begin (baud : Z)
| Serial_println (line : string)
| Wire_begin
| Delay (ms : Z)
| EEPROM_put (addr : Z) (v : Z)
| SD_begin (cs : Z) (ok : bool)
| SD_open (name : string) (mode : open_mode) (ok : bool)
| File_println (name : string) (line : string)
| File_close (name : string)
| Lcd_init
| Lcd_backlight
| Lcd_setCursor (col row : Z)
| Lcd_print (text : string)
| LoadCell_begin
| LoadCell_start (stabilizingtime : Z) (tare : bool)
| LoadCell_setCalFactor (bits : Z)
| LoadCell_getData (v : F32.float).

(** The globals of the sketch, the [static] of [loop], the two output pins,
    the EEPROM and the calls made so far (oldest first). *)
Record state : Type := mkState {
  eeprom_mem : EEPROM.eeprom;
  t : Z;                      (* unsigned long t = 0 *)
  index : Z;                  (* long index *)
  filename : string;          (* String filename *)
  myFile : option string;     (* File myFile: the name it is open on *)
  newDataReady : bool;        (* static boolean newDataReady = 0 *)
  red_level : bool;
  green_level : bool;
  trace : list event
}.

Definition power_on (e : EEPROM.eeprom) : state :=
  mkState e 0 0 EmptyString None false false false [].

(** What the devices answer during [setup]. *)
Record boot_env : Type := mkBoot {
  sd_begin_ok : bool;         (* SD.begin(10) *)
  open_write_ok : bool;       (* SD.open(filename, FILE_WRITE) in init_SD *)
  open_read_ok : bool;        (* SD.open(filename) in init_Display *)
  tare_timeout : bool         (* LoadCell.getTareTimeoutFlag() *)
}.

(** What the devices answer during one call of [loop]. *)
Record loop_env : Type := mkLoop {
  update : bool;              (* LoadCell.update() is non-zero *)
  millis_test : Z;            (* millis() in the condition *)
  millis_stamp : Z;           (* millis() assigned to t *)
  getData : F32.float;        (* LoadCell.getData() *)
  open_ok : bool              (* SD.open(filename, FILE_WRITE) *)
}.

(** ** The sketch monad: state passing, with [while (1);] as [Halted] *)

Inductive outcome (A : Type) : Type :=
| Done (a : A) (st : state)
| Halted (st : state).
Arguments Done {A} a st.
Arguments Halted {A} st.

Definition M (A : Type) : Type := state -> outcome A.

Definition ret {A : Type} (a : A) : M A := fun st => Done a st.

Definition bind {A B : Type} (m : M A) (k : A -> M B) : M B :=
  fun st =>
    match m st with
    | Done a st' => k a st'
    | Halted st' => Halted st'
    end.

(** [while (1);] *)
Definition halt {A : Type} : M A := fun st => Halted st.

Definition final {A : Type} (o : outcome A) : state :=
  match o with
  | Done _ st => st
  | Halted st => st
  end.

Definition is_halted {A : Type} (o : outcome A) : bool :=
  match o with
  | Done _ _ => false
  | Halted _ => true
  end.

Declare Scope sketch_scope.
Delimit Scope sketch_scope with sketch.
Notation "x <- m ;; k" := (bind m (fun x => k))
  (at level 61, m at next level, right associativity) : sketch_scope.
Notation "m ;; k" := (bind m (fun _ => k))
  (at level 61, right associativity) : sketch_scope.
Local Open Scope sketch_scope.

Definition gets {A : Type} (f : state -> A) : M A := fun st => Done (f st) st.
Definition modify (f : state -> state) : M unit := fun st => Done tt (f st).

Definition emit (ev : event) : M unit :=
  modify (fun st =>
    mkState (eeprom_mem st) (t st) (index st) (filename st) (myFile st)
      (newDataReady st) (red_level st) (green_level st) (trace st ++ [ev])).

Definition set_eeprom (e : EEPROM.eeprom) : M unit :=
  modify (fun st =>
    mkState e (t st) (index st) (filename st) (myFile st)
      (newDataReady st) (red_level st) (green_level st) (trace st)).

Definition set_t (v : Z) : M unit :=
  modify (fun st =>
    mkState (eeprom_mem st) v (index st) (filename st) (myFile st)
      (newDataReady st) (red_level st) (green_level st) (trace st)).

Definition set_index (v : Z) : M unit :=
  modify (fun st =>
    mkState (eeprom_mem st) (t st) v (filename st) (myFile st)
      (newDataReady st) (red_level st) (green_level st) (trace st)).

Definition set_filename (v : string) : M unit :=
  modify (fun st =>
    mkState (eeprom_mem st) (t st) (index st) v (myFile st)
      (newDataReady st) (red_level st) (green_level st) (trace st)).

Definition set_myFile (v : option string) : M unit :=
  modify (fun st =>
    mkState (eeprom_mem st) (t st) (index st) (filename st) v
      (newDataReady st) (red_level st) (green_level st) (trace st)).

Definition set_newDataReady (v : bool) : M unit :=
  modify (fun st =>
    mkState (eeprom_mem st) (t st) (index st) (filename st) (myFile st)
      v (red_level st) (green_level st) (trace st)).

Definition set_level (p : pin) (v : bool) : M unit :=
  modify (fun st =>
    match p with
    | RED =>
        mkState (eeprom_mem st) (t st) (index st) (filename st) (myFile st)
          (newDataReady st) v (green_level st) (trace st)
    | GREEN =>
        mkState (eeprom_mem st) (t st) (index st) (filename st) (myFile st)
          (newDataReady st) (red_level st) v (trace st)
    end).

Definition when (b : bool) (m : M unit) : M unit := if b then m else ret tt.

(** ** Device calls *)

Definition pinMode_OUTPUT (p : pin) : M unit := emit (PinMode_output p).

Definition digitalWrite (p : pin) (v : bool) : M unit :=
  set_level p v ;; emit (DigitalWrite p v).

Definition Serial_println_ (line : string) : M unit := emit (Serial_println line).

Definition delay (ms : Z) : M unit := emit (Delay ms).

(** [EEPROM.get(a, index)]. *)
Definition EEPROM_get_index (a : Z) : M unit :=
  e <- gets eeprom_mem ;; set_index (EEPROM.get_long e a).

(** [EEPROM.put(a, index)]. *)
Definition EEPROM_put_index (a : Z) : M unit :=
  e <- gets eeprom_mem ;;
  v <- gets index ;;
  set_eeprom (EEPROM.put_long e a v) ;;
  emit (EEPROM_put a v).

(** [myFile = SD.open(name, mode)]: the handle is open exactly when the card
    answered with a file. *)
Definition SD_open_myFile (name : string) (mode : open_mode) (ok : bool) : M unit :=
  emit (SD_open name mode ok) ;;
  set_myFile (if ok then Some name else None).

(** [myFile.println(line)]: written only through an open handle. *)
Definition myFile_println (line : string) : M unit :=
  f <- gets myFile ;;
  match f with
  | Some name => emit (File_println name line)
  | None => ret tt
  end.

(** [myFile.close()]: nothing happens on a handle that is not open. *)
Definition myFile_close : M unit :=
  f <- gets myFile ;;
  match f with
  | Some name => emit (File_close name) ;; set_myFile None
  | None => ret tt
  end.

(** [if (myFile)] *)
Definition myFile_bool : M bool :=
  f <- gets myFile ;; ret (match f with Some _ => true | None => false end).

Definition lcd_setCursor (col row : Z) : M unit := emit (Lcd_setCursor col row).
Definition lcd_print (text : string) : M unit := emit (Lcd_print text).

(** What [Print::println] sends for a line: the text, then CR LF. *)
Definition println_bytes (line : string) : string :=
  (line ++ String (ascii_of_nat 13) (String (ascii_of_nat 10) EmptyString))%string.

(** ** The sketch *)

Definition calVal_eepromAdress : Z := 0.

(** [greenLight], lines 103-106. *)
Definition greenLight (do_green : bool) : M unit :=
  digitalWrite RED (negb do_green) ;;
  digitalWrite GREEN do_green.

(** Lines 146-150 of [create_Filename]: the name built from [index]. *)
Definition filename_of_index (idx : Z) : string :=
  let extra_0 := EmptyString in
  let extra_0 := if idx <? 10 then "0"%string else extra_0 in
  ("TEST_" ++ extra_0 ++ Dec.ltoa idx ++ ".txt")%string.

(** Lines 139-142 of [create_Filename]: [index++] and the reset above 99. *)
Definition next_index (v : Z) : Z :=
  let v' := Int.wrap_long (v + 1) in
  if v' >? 99 then 0 else v'.

(** [create_Filename], lines 136-151. *)
Definition create_Filename : M unit :=
  EEPROM_get_index (calVal_eepromAdress + 4) ;;
  idx <- gets index ;;
  set_index (Int.wrap_long (idx + 1)) ;;
  idx <- gets index ;;
  when (idx >? 99) (set_index 0) ;;
  EEPROM_put_index (calVal_eepromAdress + 4) ;;
  idx <- gets index ;;
  set_filename (filename_of_index idx).

(** [init_SD], lines 109-130. *)
Definition init_SD (env : boot_env) : M unit :=
  Serial_println_ "SD card starting..." ;;
  emit (SD_begin 10 (sd_begin_ok env)) ;;
  when (negb (sd_begin_ok env)) (Serial_println_ "SD initialization failed!") ;;
  Serial_println_ "SD initialization done." ;;
  create_Filename ;;
  fn <- gets filename ;;
  SD_open_myFile fn FILE_WRITE (open_write_ok env) ;;
  delay 500 ;;
  f <- myFile_bool ;;
  Serial_println_ ("Attempting to open file: " ++ fn ++ " --> "
                   ++ (if f then "1" else "0"))%string ;;
  if f then
    Serial_println_ "Open SD file passed!" ;;
    idx <- gets index ;;
    myFile_println ("Start of test " ++ Dec.ltoa idx)%string ;;
    myFile_close ;;
    greenLight true
  else
    Serial_println_ "Open SD file failed!" ;;
    greenLight false.

(** [declare_Load_Cell_Failure], lines 224-227. *)
Definition declare_Load_Cell_Failure : M unit :=
  lcd_setCursor 0 0 ;;
  lcd_print "LOAD CELL INIT FAIL!".

(** [init_LoadCell], lines 154-179.  [calibrationValue] is carried as the bit
    pattern read from the EEPROM. *)
Definition init_LoadCell (env : boot_env) : M unit :=
  Serial_println_ "HX711 starting..." ;;
  emit LoadCell_begin ;;
  e <- gets eeprom_mem ;;
  let calibrationValue := EEPROM.get_bits e calVal_eepromAdress in
  let stabilizingtime := 2000 in
  let _tare := true in
  emit (LoadCell_start stabilizingtime _tare) ;;
  if tare_timeout env then
    Serial_println_ "Timeout, check MCU>HX711 wiring and pin designations" ;;
    greenLight false ;;
    declare_Load_Cell_Failure ;;
    halt
  else
    emit (LoadCell_setCalFactor calibrationValue) ;;
    Serial_println_ "HX711 startup is complete".

(** [init_Display], lines 182-202. *)
Definition init_Display (env : boot_env) : M unit :=
  Serial_println_ "LCD starting..." ;;
  fn <- gets filename ;;
  SD_open_myFile fn FILE_READ (open_read_ok env) ;;
  file_Success <- myFile_bool ;;
  myFile_close ;;
  emit Lcd_init ;;
  emit Lcd_backlight ;;
  lcd_setCursor 0 0 ;;
  (if file_Success then lcd_print "Writing: " else lcd_print "Failed: ") ;;
  fn <- gets filename ;;
  lcd_print fn.

(** [setup], lines 62-73. *)
Definition setup (env : boot_env) : M unit :=
  pinMode_OUTPUT RED ;;
  pinMode_OUTPUT GREEN ;;
  greenLight false ;;
  emit (Serial_begin 57600) ;;
  delay 10 ;;
  Serial_println_ "" ;;
  emit Wire_begin ;;
  init_SD env ;;
  init_Display env ;;
  init_LoadCell env.

(** The number of blanks printed after the reading, lines 213-221. *)
Definition trailing_spaces (dataIn : F32.float) : nat :=
  if F32.lt dataIn (F32.of_int 10) && F32.gt dataIn (F32.of_int 0) then 4
  else if F32.lt dataIn (F32.of_int 100) && F32.gt dataIn (F32.of_int (-10)) then 3
  else if F32.lt dataIn (F32.of_int 1000) && F32.gt dataIn (F32.of_int (-100)) then 2
  else if F32.lt dataIn (F32.of_int 10000) && F32.gt dataIn (F32.of_int (-1000)) then 1
  else 0.

Definition spaces (n : nat) : string := string_of_list_ascii (repeat " "%char n).

Section Sketch.

(** [String(x, n)] for a [float x]: the text with [n] decimal places, as the
    Arduino core renders it. *)
Variable String_float : F32.float -> Z -> string.

(** The line of one sample: ["" + String(t) + "," + String(i, 4)]. *)
Definition sample_line (tv : Z) (i : F32.float) : string :=
  ("" ++ Dec.ultoa tv ++ "," ++ String_float i 4)%string.

(** [write_Data_To_LCD], lines 205-222. *)
Definition write_Data_To_LCD (dataIn : F32.float) : M unit :=
  lcd_setCursor 0 2 ;;
  tv <- gets t ;;
  lcd_print ("Time (ms): " ++ Dec.ultoa tv)%string ;;
  lcd_setCursor 0 3 ;;
  lcd_print ("Thrust (g): " ++ String_float dataIn 2)%string ;;
  if F32.lt dataIn (F32.of_int 10) && F32.gt dataIn (F32.of_int 0) then
    lcd_print "    "
  else if F32.lt dataIn (F32.of_int 100) && F32.gt dataIn (F32.of_int (-10)) then
    lcd_print "   "
  else if F32.lt dataIn (F32.of_int 1000) && F32.gt dataIn (F32.of_int (-100)) then
    lcd_print "  "
  else if F32.lt dataIn (F32.of_int 10000) && F32.gt dataIn (F32.of_int (-1000)) then
    lcd_print " "
  else ret tt.

Definition serialPrintInterval : Z := 0.

(** [loop], lines 75-99. *)
Definition loop (env : loop_env) : M unit :=
  when (update env) (set_newDataReady true) ;;
  ready <- gets newDataReady ;;
  when ready (
    tv <- gets t ;;
    when (Int.wrap_ulong (millis_test env)
            >? Int.wrap_ulong (tv + serialPrintInterval)) (
      let i := getData env in
      emit (LoadCell_getData i) ;;
      set_t (Int.wrap_ulong (millis_stamp env)) ;;
      tv <- gets t ;;
      Serial_println_ ("" ++ Dec.ultoa tv ++ "," ++ String_float i 4)%string ;;
      write_Data_To_LCD i ;;
      set_newDataReady false ;;
      fn <- gets filename ;;
      SD_open_myFile fn FILE_WRITE (open_ok env) ;;
      f <- myFile_bool ;;
      when f (
        tv <- gets t ;;
        myFile_println ("" ++ Dec.ultoa tv ++ "," ++ String_float i 4)%string ;;
        myFile_close))).

(** [loop] called once for every element of [envs], as the core's
    [for (;;) loop();] does. *)
Fixpoint loops (envs : list loop_env) : M unit :=
  match envs with
  | [] => ret tt
  | env :: rest => loop env ;; loops rest
  end.

(** The core's [main]: [setup()], then [loop()] for ever. *)
Definition run (boot : boot_env) (envs : list loop_env) : M unit :=
  setup boot ;; loops envs.

End Sketch.

(** ** Observations on states and traces *)

(** The calls a computation adds to the trace of the state it starts in. *)
Definition emitted {A : Type} (m : M A) (st : state) : list event :=
  skipn (List.length (trace st)) (trace (final (m st))).

(** The diagnostic sink: the lines sent to [Serial], oldest first. *)
Definition serial_lines (tr : list event) : list string :=
  flat_map (fun ev => match ev with Serial_println l => [l] | _ => [] end) tr.

(** The durable sink: the lines written to files, with the file's name. *)
Definition file_lines (tr : list event) : list (string * string) :=
  flat_map (fun ev => match ev with File_println n l => [(n, l)] | _ => [] end) tr.

Definition is_open_event (ev : event) : bool :=
  match ev with SD_open _ _ _ => true | _ => false end.

Definition is_sd_event (ev : event) : bool :=
  match ev with
  | SD_open _ _ _ | File_println _ _ | File_close _ => true
  | _ => false
  end.

Definition is_led_write (ev : event) : bool :=
  match ev with DigitalWrite _ _ => true | _ => false end.

Definition is_eeprom_put (ev : event) : bool :=
  match ev with EEPROM_put _ _ => true | _ => false end.

Definition is_getData (ev : event) : bool :=
  match ev with LoadCell_getData _ => true | _ => false end.

Definition sd_events (tr : list event) : list event := filter is_sd_event tr.
Definition led_writes (tr : list event) : list event := filter is_led_write tr.

(** The status light as a two-state indicator. *)
Inductive light : Type := Healthy | Unhealthy | Undriven.

Definition indicator (st : state) : light :=
  match red_level st, green_level st with
  | false, true => Healthy
  | true, false => Unhealthy
  | _, _ => Undriven
  end.

(** The test of [loop] that lets a reading through: a reading is pending and
    [millis() > t + serialPrintInterval] in [unsigned long] arithmetic. *)
Definition accepts (env : loop_env) (st : state) : bool :=
  (update env || newDataReady st)
  && (Int.wrap_ulong (millis_test env)
        >? Int.wrap_ulong (t st + serialPrintInterval)).

(** The samples a sequence of polls lets through, in order: time stamp,
    reading, and whether the card opened for it. *)
Fixpoint accepted_samples (ready : bool) (tv : Z) (envs : list loop_env)
  : list (Z * F32.float * bool) :=
  match envs with
  | [] => []
  | env :: rest =>
      let ready' := update env || ready in
      if ready' && (Int.wrap_ulong (millis_test env)
                      >? Int.wrap_ulong (tv + serialPrintInterval))
      then (Int.wrap_ulong (millis_stamp env), getData env, open_ok env)
             :: accepted_samples false (Int.wrap_ulong (millis_stamp env)) rest
      else accepted_samples ready' tv rest
  end.

(** The zero-padded two-digit rendering of an index. *)
Definition two_digits (i : Z) : string :=
  String (Dec.digit (i / 10)) (String (Dec.digit (i mod 10)) EmptyString).

(** The part of a file name before its first dot. *)
Fixpoint base_name (s : string) : string :=
  match s with
  | EmptyString => EmptyString
  | String c rest => if Ascii.eqb c "."%char then EmptyString else String c (base_name rest)
  end.

(** What is shown after the reading by one call of [write_Data_To_LCD]: the
    texts printed once the cursor moves, the two labels and the reading are
    out. *)
Definition lcd_text (ev : event) : string :=
  match ev with Lcd_print s => s | _ => EmptyString end.

Definition rendered_suffix (String_float : F32.float -> Z -> string)
    (dataIn : F32.float) (st : state) : string :=
  String.concat EmptyString
    (map lcd_text (skipn 4 (emitted (write_Data_To_LCD String_float dataIn) st))).

(** A reading strictly between two integer bounds, as the sketch tests it. *)
Definition in_bracket (lo hi : Z) (x : F32.float) : bool :=
  F32.lt x (F32.of_int hi) && F32.gt x (F32.of_int lo).

Definition Qltb (a b : Q) : bool := negb (Qle_bool b a).

(** The padding table as the specification words it, on the exact value of a
    reading: below 10 and above 0, four blanks; below 100 and above -10,
    three; below 1000 and above -100, two; below 10000 and above -1000, one;
    otherwise none; the brackets are tried in this order. *)
Definition padding_table (q : Q) : nat :=
  if Qltb q (inject_Z 10) && Qltb (inject_Z 0) q then 4
  else if Qltb q (inject_Z 100) && Qltb (inject_Z (-10)) q then 3
  else if Qltb q (inject_Z 1000) && Qltb (inject_Z (-100)) q then 2
  else if Qltb q (inject_Z 10000) && Qltb (inject_Z (-1000)) q then 1
  else 0.

(** The calls of one [write_Data_To_LCD]: the two labelled fields, then the
    blanks (none is printed when no bracket matches). *)
Definition pad_events (n : nat) : list event :=
  match n with
  | O => []
  | S _ => [Lcd_print (spaces n)]
  end.

Definition lcd_events (String_float : F32.float -> Z -> string)
    (tv : Z) (dataIn : F32.float) : list event :=
  [Lcd_setCursor 0 2; Lcd_print ("Time (ms): " ++ Dec.ultoa tv)%string;
   Lcd_setCursor 0 3; Lcd_print ("Thrust (g): " ++ String_float dataIn 2)%string]
  ++ pad_events (trailing_spaces dataIn).

(** The calls on the card for one sample: the open, and behind a successful
    open the line and the close. *)
Definition card_events (fn line : string) (ok : bool) : list event :=
  SD_open fn FILE_WRITE ok
  :: (if ok then [File_println fn line; File_close fn] else []).

(** The calls of one pass through [loop] that lets a reading through. *)
Definition sample_events (String_float : F32.float -> Z -> string)
    (fn : string) (tv : Z) (i : F32.float) (ok : bool) : list event :=
  [LoadCell_getData i; Serial_println (sample_line String_float tv i)]
  ++ lcd_events String_float tv i
  ++ card_events fn (sample_line String_float tv i) ok.

(** The state a pass through [loop] ends in. *)
Definition after_loop (String_float : F32.float -> Z -> string)
    (env : loop_env) (st : state) : state :=
  if accepts env st then
    let tv := Int.wrap_ulong (millis_stamp env) in
    mkState (eeprom_mem st) tv (index st) (filename st) None false
      (red_level st) (green_level st)
      (trace st ++ sample_events String_float (filename st) tv
                     (getData env) (open_ok env))
  else
    mkState (eeprom_mem st) (t st) (index st) (filename st) (myFile st)
      (update env || newDataReady st) (red_level st) (green_level st)
      (trace st).

(** The trace up to its first [EEPROM.put], the put, and what follows. *)
Fixpoint split_at_put (tr : list event)
  : option (list event * (Z * Z) * list event) :=
  match tr with
  | [] => None
  | EEPROM_put a v :: rest => Some ([], (a, v), rest)
  | ev :: rest =>
      match split_at_put rest with
      | Some (pre, av, post) => Some (ev :: pre, av, post)
      | None => None
      end
  end.

(** The state after [loop] has run once for every element of [envs]. *)
Definition after_loops (String_float : F32.float -> Z -> string)
    (envs : list loop_env) (st : state) : state :=
  fold_left (fun s env => after_loop String_float env s) envs st.

(** The calls of a sequence of accepted samples, all on the file [fn]. *)
Definition samples_events (String_float : F32.float -> Z -> string)
    (fn : string) (samples : list (Z * F32.float * bool)) : list event :=
  flat_map (fun s => sample_events String_float fn (fst (fst s)) (snd (fst s)) (snd s))
    samples.

(** The characters appended to files by a trace. *)
Definition file_bytes (tr : list event) : string :=
  String.concat EmptyString (map (fun nl => println_bytes (snd nl)) (file_lines tr)).

(** ** Concrete inputs *)

(** A stored session index 99 at offset 4, little-endian, zero elsewhere. *)
Definition eeprom_99 : EEPROM.eeprom := fun a => if a =? 4 then 99 else 0.

(** The stored pattern FA FF FF FF at offset 4: the long -6. *)
Definition eeprom_minus_6 : EEPROM.eeprom :=
  fun a => if a =? 4 then 250
           else if (5 <=? a) && (a <=? 7) then 255 else 0.

(** A rendering of the two readings used below, with 2 and with 4 decimals. *)
Definition String_float_table (x : F32.float) (n : Z) : string :=
  if SFeqb x F32.f7_5 then (if n =? 4 then "7.5000" else "7.50")
  else if SFeqb x F32.f7500_5 then (if n =? 4 then "7500.5000" else "7500.50")
  else "nan".

(** A boot with the card present and the load cell answering. *)
Definition boot_ok : boot_env := mkBoot true true true false.

(** A boot with the card present and the tare timing out. *)
Definition boot_tare_timeout : boot_env := mkBoot true true true true.

(** A poll with a reading of 7.5 ready at 1200 ms; the card opens. *)
Definition poll_card_ok : loop_env := mkLoop true 1200 1200 F32.f7_5 true.

(** The same poll with the card not opening. *)
Definition poll_card_fails : loop_env := mkLoop true 1200 1200 F32.f7_5 false.

(** ** Sessions, parsing and display geometry *)

(** One session: the sketch runs from power-on on the EEPROM [e] through the
    polls of [s] and is then reset; what is left is the EEPROM. *)
Definition session (String_float : F32.float -> Z -> string)
    (e : EEPROM.eeprom) (s : boot_env * list loop_env) : EEPROM.eeprom :=
  eeprom_mem (final (run String_float (fst s) (snd s) (power_on e))).

(** Successive sessions, each booting on the EEPROM the previous one left. *)
Definition boots (String_float : F32.float -> Z -> string)
    (sessions : list (boot_env * list loop_env)) (e : EEPROM.eeprom)
  : EEPROM.eeprom :=
  fold_left (session String_float) sessions e.

(** Reading a run of decimal digits, most significant first, up to the first
    character that is not a digit. *)
Fixpoint parse_digits (s : string) (acc : Z) : Z :=
  match s with
  | EmptyString => acc
  | String c rest =>
      if Dec.is_digit c
      then parse_digits rest (10 * acc + (Z.of_nat (nat_of_ascii c) - 48))
      else acc
  end.

(** The same with an optional leading minus sign. *)
Definition parse_long (s : string) : Z :=
  match s with
  | String c rest =>
      if Ascii.eqb c "-"%char then - parse_digits rest 0 else parse_digits s 0
  | EmptyString => 0
  end.

(** The time stamps of a list of samples. *)
Definition stamps (samples : list (Z * F32.float * bool)) : list Z :=
  map (fun s => fst (fst s)) samples.

(** [LiquidCrystal_I2C lcd(0x27,20,4)]: 20 columns. *)
Definition lcd_cols : nat := 20.

Definition is_lcd_event (ev : event) : bool :=
  match ev with
  | Lcd_init | Lcd_backlight | Lcd_setCursor _ _ | Lcd_print _ => true
  | _ => false
  end.

Definition is_loadcell_event (ev : event) : bool :=
  match ev with
  | LoadCell_begin | LoadCell_start _ _ | LoadCell_setCalFactor _
  | LoadCell_getData _ => true
  | _ => false
  end.

(** A boot with no card: [SD.begin] and both opens fail. *)
Definition boot_no_card : boot_env := mkBoot false false false false.

(** A poll with nothing ready at 1300 ms, the card not opening. *)
Definition poll_idle : loop_env := mkLoop false 1300 1300 F32.f7500_5 false.

(** A reading ready while the clock still shows 0, and the next poll, with
    nothing new reported, at 5 ms. *)
Definition poll_too_early : loop_env := mkLoop true 0 0 F32.f7_5 true.
Definition poll_later : loop_env := mkLoop false 5 5 F32.f7500_5 true.

(** ** Facts about machine integers and the EEPROM *)

Lemma wrap_long_id (z : Z) : Int.in_long z -> Int.wrap_long z = z.
Proof.
  unfold Int.in_long, Int.LONG_MIN, Int.LONG_MAX, Int.wrap_long. intros H.
  rewrite Z.mod_small by lia. lia.
Qed.

Lemma wrap_long_range (z : Z) : Int.in_long (Int.wrap_long z).
Proof.
  unfold Int.in_long, Int.LONG_MIN, Int.LONG_MAX, Int.wrap_long.
  pose proof (Z.mod_pos_bound (z + 2 ^ 31) (2 ^ 32) ltac:(lia)). lia.
Qed.

Lemma byte_of_div (z k : Z) :
  0 <= k -> Int.byte_of z k = (z / 2 ^ (8 * k)) mod 256.
Proof.
  intros Hk. unfold Int.byte_of.
  rewrite Z.shiftr_div_pow2 by lia.
  change 255 with (Z.ones 8). rewrite Z.land_ones by lia. reflexivity.
Qed.

Lemma read_update_same (e : EEPROM.eeprom) (a b : Z) :
  EEPROM.read (EEPROM.update e a b) a = b mod 256.
Proof.
  unfold EEPROM.read, EEPROM.update. rewrite Z.eqb_refl.
  apply Z.mod_mod. lia.
Qed.

Lemma read_update_other (e : EEPROM.eeprom) (a a' b : Z) :
  a' <> a -> EEPROM.read (EEPROM.update e a b) a' = EEPROM.read e a'.
Proof.
  intros H. unfold EEPROM.read, EEPROM.update.
  destruct (Z.eqb_spec a' a); [contradiction | reflexivity].
Qed.

Lemma get_bits_put_long (e : EEPROM.eeprom) (a v : Z) :
  EEPROM.get_bits (EEPROM.put_long e a v) a = v mod 2 ^ 32.
Proof.
  unfold EEPROM.get_bits, EEPROM.put_long.
  repeat (rewrite read_update_same || rewrite read_update_other by lia).
  rewrite !byte_of_div by lia.
  rewrite !Z.mod_mod by lia.
  change (8 * 0) with 0. change (8 * 1) with 8.
  change (8 * 2) with 16. change (8 * 3) with 24.
  change (2 ^ 0) with 1. rewrite Z.div_1_r.
  change (2 ^ 8) with 256. change (2 ^ 16) with 65536.
  change (2 ^ 24) with 16777216. change (2 ^ 32) with 4294967296.
  pose proof (Z.div_mod v 256 ltac:(lia)).
  pose proof (Z.div_mod v 65536 ltac:(lia)).
  pose proof (Z.div_mod v 16777216 ltac:(lia)).
  pose proof (Z.div_mod v 4294967296 ltac:(lia)).
  pose proof (Z.div_mod (v / 256) 256 ltac:(lia)).
  pose proof (Z.div_mod (v / 65536) 256 ltac:(lia)).
  pose proof (Z.div_mod (v / 16777216) 256 ltac:(lia)).
  rewrite !Z.div_div in * by lia.
  change (256 * 256) with 65536 in *.
  change (65536 * 256) with 16777216 in *.
  change (16777216 * 256) with 4294967296 in *.
  lia.
Qed.

Lemma get_long_put_long (e : EEPROM.eeprom) (a v : Z) :
  Int.in_long v -> EEPROM.get_long (EEPROM.put_long e a v) a = v.
Proof.
  intros Hv. unfold EEPROM.get_long. rewrite get_bits_put_long.
  unfold Int.wrap_long. rewrite Zplus_mod_idemp_l.
  apply (wrap_long_id v Hv).
Qed.

Lemma read_put_long_other (e : EEPROM.eeprom) (a v a' : Z) :
  a' < a \/ a + 3 < a' ->
  EEPROM.read (EEPROM.put_long e a v) a' = EEPROM.read e a'.
Proof.
  intros H. unfold EEPROM.put_long.
  repeat (rewrite read_update_other by lia). reflexivity.
Qed.

(** ** Facts about the decimal rendering and the file name *)

Lemma digit_inj (a b : Z) :
  0 <= a < 10 -> 0 <= b < 10 -> Dec.digit a = Dec.digit b -> a = b.
Proof.
  intros Ha Hb H. unfold Dec.digit in H.
  apply (f_equal nat_of_ascii) in H.
  rewrite !nat_ascii_embedding in H by lia. lia.
Qed.

Lemma div10_bounds (i : Z) : 0 <= i <= 99 -> 0 <= i / 10 < 10.
Proof.
  intros H. split; [apply Z.div_pos; lia | apply Z.div_lt_upper_bound; lia].
Qed.

Lemma ltoa_one_digit (i : Z) :
  0 <= i < 10 -> Dec.ltoa i = String (Dec.digit i) EmptyString.
Proof.
  intros H. unfold Dec.ltoa, Dec.ultoa.
  destruct (Z.ltb_spec i 0); [lia |]. cbn [Dec.utoa_rec].
  rewrite Z.div_small, Z.mod_small by lia. reflexivity.
Qed.

Lemma ltoa_two_digits (i : Z) : 10 <= i <= 99 -> Dec.ltoa i = two_digits i.
Proof.
  intros H. unfold Dec.ltoa, Dec.ultoa, two_digits.
  destruct (Z.ltb_spec i 0); [lia |]. cbn [Dec.utoa_rec].
  pose proof (div10_bounds i ltac:(lia)) as B.
  destruct (Z.eqb_spec (i / 10) 0) as [E | E].
  - apply Z.div_small_iff in E; lia.
  - rewrite (Z.div_small (i / 10)) by lia. cbn.
    rewrite (Z.mod_small (i / 10)) by lia. reflexivity.
Qed.

Lemma ltoa_negative (i : Z) :
  i < 0 -> Dec.ltoa i = String "-"%char (Dec.ultoa (- i)).
Proof.
  intros H. unfold Dec.ltoa. destruct (Z.ltb_spec i 0); [reflexivity | lia].
Qed.

Lemma filename_two_digits (i : Z) :
  0 <= i <= 99 ->
  filename_of_index i = ("TEST_" ++ two_digits i ++ ".txt")%string.
Proof.
  intros H. unfold filename_of_index.
  destruct (Z.ltb_spec i 10).
  - rewrite ltoa_one_digit by lia. unfold two_digits.
    rewrite Z.div_small, Z.mod_small by lia. reflexivity.
  - rewrite ltoa_two_digits by lia. reflexivity.
Qed.

Lemma two_digits_inj (i j : Z) :
  0 <= i <= 99 -> 0 <= j <= 99 -> two_digits i = two_digits j -> i = j.
Proof.
  intros Hi Hj H. unfold two_digits in H. injection H as Hhi Hlo.
  pose proof (div10_bounds i Hi) as Bi.
  pose proof (div10_bounds j Hj) as Bj.
  pose proof (Z.mod_pos_bound i 10 ltac:(lia)) as Mi.
  pose proof (Z.mod_pos_bound j 10 ltac:(lia)) as Mj.
  apply digit_inj in Hhi; [| lia | lia].
  apply digit_inj in Hlo; [| lia | lia].
  rewrite (Z.div_mod i 10), (Z.div_mod j 10) by lia. lia.
Qed.

Lemma digit_is_digit (d : Z) : 0 <= d < 10 -> Dec.is_digit (Dec.digit d) = true.
Proof.
  intros H. unfold Dec.is_digit, Dec.digit.
  rewrite nat_ascii_embedding by lia.
  apply andb_true_intro. split; apply Z.leb_le; lia.
Qed.

Lemma digit_not_dot (d : Z) : 0 <= d < 10 -> Ascii.eqb (Dec.digit d) "."%char = false.
Proof.
  intros H. apply Ascii.eqb_neq. intros E.
  apply (f_equal nat_of_ascii) in E. unfold Dec.digit in E.
  rewrite nat_ascii_embedding in E by lia.
  change (nat_of_ascii "."%char) with 46%nat in E. lia.
Qed.

Lemma next_index_in_range (v : Z) :
  0 <= v <= 99 -> next_index v = (v + 1) mod 100.
Proof.
  intros H. unfold next_index.
  rewrite wrap_long_id by (unfold Int.in_long, Int.LONG_MIN, Int.LONG_MAX; lia).
  destruct (Z.gtb_spec (v + 1) 99).
  - replace v with 99 by lia. reflexivity.
  - rewrite Z.mod_small by lia. reflexivity.
Qed.

Lemma next_index_long (v : Z) : Int.in_long (next_index v).
Proof.
  unfold next_index.
  destruct (Int.wrap_long (v + 1) >? 99).
  - unfold Int.in_long, Int.LONG_MIN, Int.LONG_MAX. lia.
  - apply wrap_long_range.
Qed.

(** ** The sketch, function by function *)

Lemma create_Filename_eq (st : state) :
  let idx := next_index (EEPROM.get_long (eeprom_mem st) 4) in
  create_Filename st =
  Done tt (mkState (EEPROM.put_long (eeprom_mem st) 4 idx) (t st) idx
             (filename_of_index idx) (myFile st) (newDataReady st)
             (red_level st) (green_level st) (trace st ++ [EEPROM_put 4 idx])).
Proof.
  unfold create_Filename, next_index.
  cbn -[EEPROM.get_long EEPROM.put_long filename_of_index Int.wrap_long Z.gtb].
  destruct (Int.wrap_long (EEPROM.get_long (eeprom_mem st) 4 + 1) >? 99);
    reflexivity.
Qed.

Lemma split_at_put_spec (tr : list event) :
  match split_at_put tr with
  | Some (pre, (a, v), post) =>
      tr = pre ++ EEPROM_put a v :: post /\ existsb is_eeprom_put pre = false
  | None => existsb is_eeprom_put tr = false
  end.
Proof.
  induction tr as [| ev rest IH]; [reflexivity |].
  destruct ev; cbn [split_at_put];
    try (destruct (split_at_put rest) as [[[pre' [a' v']] post'] |];
         [destruct IH as [-> IH]; split; [reflexivity | exact IH] | exact IH]).
  split; reflexivity.
Qed.

Ltac exec :=
  cbv beta iota zeta delta
    [setup init_SD init_Display init_LoadCell declare_Load_Cell_Failure
     greenLight bind ret gets modify emit halt when
     set_eeprom set_t set_index set_filename set_myFile set_newDataReady
     set_level pinMode_OUTPUT digitalWrite Serial_println_ delay
     SD_open_myFile myFile_println myFile_close myFile_bool
     lcd_setCursor lcd_print
     eeprom_mem t index filename myFile newDataReady red_level green_level
     trace power_on final is_halted negb
     sd_begin_ok open_write_ok open_read_ok tare_timeout calVal_eepromAdress].

(** [setup] run symbolically from a state whose trace is a literal list. *)
Ltac exec_setup := exec; rewrite create_Filename_eq; exec; cbn [app].

Lemma create_Filename_in_range (st : state) (v : Z) :
  EEPROM.get_long (eeprom_mem st) 4 = v -> 0 <= v <= 99 ->
  exists st',
    create_Filename st = Done tt st' /\
    index st' = (v + 1) mod 100 /\
    EEPROM.get_long (eeprom_mem st') 4 = (v + 1) mod 100 /\
    filename st' = filename_of_index ((v + 1) mod 100).
Proof.
  intros Hv Hr. rewrite create_Filename_eq. eexists. split; [reflexivity |].
  cbn [index eeprom_mem filename]. rewrite Hv.
  rewrite get_long_put_long by apply next_index_long.
  rewrite next_index_in_range by exact Hr. repeat split.
Qed.

(** ** The session counter and the file name *)

(** C1: for every stored session index v in [0,99], the boot's single call of
    create_Filename leaves (v+1) mod 100 in [index], the same value is what
    the EEPROM holds at offset 4 afterwards, the put happens before any
    [SD.open] and is the only put of the boot, and the file name is derived
    from the advanced index; from 99 the persisted value is 0 and the name is
    TEST_00.txt.  This holds whatever the card and the load cell answer. *)
Theorem boot_advances_session_index :
  forall (e : EEPROM.eeprom) (boot : boot_env) (v : Z),
    EEPROM.get_long e (calVal_eepromAdress + 4) = v ->
    0 <= v <= 99 ->
    let st := final (setup boot (power_on e)) in
    index st = (v + 1) mod 100 /\
    EEPROM.get_long (eeprom_mem st) (calVal_eepromAdress + 4) = (v + 1) mod 100 /\
    filename st = filename_of_index ((v + 1) mod 100) /\
    (exists pre post,
        trace st = pre ++ EEPROM_put (calVal_eepromAdress + 4) ((v + 1) mod 100) :: post
        /\ existsb is_open_event pre = false
        /\ existsb is_eeprom_put (pre ++ post) = false) /\
    (v = 99 ->
     EEPROM.get_long (eeprom_mem st) (calVal_eepromAdress + 4) = 0
     /\ filename st = "TEST_00.txt"%string).
Proof.
  intros e boot v Hv Hr. change (calVal_eepromAdress + 4) with 4 in *.
  assert (Hn : next_index (EEPROM.get_long e 4) = (v + 1) mod 100)
    by (rewrite Hv; apply next_index_in_range; exact Hr).
  assert (Hg : EEPROM.get_long
                 (EEPROM.put_long e 4 (next_index (EEPROM.get_long e 4))) 4
               = (v + 1) mod 100)
    by (rewrite get_long_put_long by apply next_index_long; exact Hn).
  destruct boot as [b1 b2 b3 b4]; cbv zeta.
  destruct b1, b2, b3, b4; exec_setup; rewrite ?Hg, ?Hn;
    (split; [reflexivity |]); (split; [reflexivity |]);
    (split; [reflexivity |]);
    (split;
     [ match goal with
       | |- exists pre post, ?tr = _ /\ _ =>
           let H := fresh in
           pose proof (split_at_put_spec tr) as H; cbn [split_at_put] in H;
           destruct H as [H _];
           eexists; eexists; split; [exact H | split; reflexivity]
       end
     | intros ->; split; reflexivity ]).
Qed.

Lemma boot_advances_session_index_witness :
  let st := final (setup (mkBoot true true true false) (power_on eeprom_99)) in
  index st = (99 + 1) mod 100 /\
  EEPROM.get_long (eeprom_mem st) (calVal_eepromAdress + 4) = (99 + 1) mod 100 /\
  filename st = filename_of_index ((99 + 1) mod 100) /\
  (exists pre post,
      trace st = pre ++ EEPROM_put (calVal_eepromAdress + 4) ((99 + 1) mod 100) :: post
      /\ existsb is_open_event pre = false
      /\ existsb is_eeprom_put (pre ++ post) = false) /\
  (99 = 99 ->
   EEPROM.get_long (eeprom_mem st) (calVal_eepromAdress + 4) = 0
   /\ filename st = "TEST_00.txt"%string).
Proof.
  apply (boot_advances_session_index eeprom_99 (mkBoot true true true false) 99).
  - reflexivity.
  - lia.
Defined.

Lemma base_name_filename (i : Z) :
  0 <= i <= 99 ->
  base_name (filename_of_index i) = ("TEST_" ++ two_digits i)%string.
Proof.
  intros H. rewrite filename_two_digits by exact H.
  unfold two_digits. cbn.
  rewrite !digit_not_dot; [reflexivity | |].
  - apply Z.mod_pos_bound. lia.
  - apply div10_bounds. exact H.
Qed.

(** C2: the file name is a function of the advanced index alone; on [0,99]
    it is "TEST_", the two decimal digits of the index (zero-padded), and
    ".txt"; distinct indices of [0,99] give distinct names; and the part
    before the extension has 7 characters, within the limit of 8. *)
Theorem filename_derivation_injective :
  (forall st : state,
      filename (final (create_Filename st))
      = filename_of_index (index (final (create_Filename st)))) /\
  (forall i : Z,
      0 <= i <= 99 ->
      filename_of_index i = ("TEST_" ++ two_digits i ++ ".txt")%string /\
      Dec.is_digit (Dec.digit (i / 10)) = true /\
      Dec.is_digit (Dec.digit (i mod 10)) = true /\
      (forall j : Z,
          0 <= j <= 99 -> filename_of_index i = filename_of_index j -> i = j) /\
      base_name (filename_of_index i) = ("TEST_" ++ two_digits i)%string /\
      (String.length (base_name (filename_of_index i)) <= 8)%nat).
Proof.
  split.
  - intros st. rewrite create_Filename_eq. reflexivity.
  - intros i Hi. split; [apply filename_two_digits; exact Hi |].
    split; [apply digit_is_digit, div10_bounds; exact Hi |].
    split; [apply digit_is_digit, Z.mod_pos_bound; lia |].
    split.
    + intros j Hj E.
      rewrite !filename_two_digits in E by assumption.
      apply two_digits_inj; try assumption.
      cbn in E. unfold two_digits in *. congruence.
    + rewrite base_name_filename by exact Hi. split; [reflexivity |].
      unfold two_digits. cbn. lia.
Qed.

Lemma filename_derivation_injective_witness :
  filename_of_index 7 = ("TEST_" ++ two_digits 7 ++ ".txt")%string /\
  Dec.is_digit (Dec.digit (7 / 10)) = true /\
  Dec.is_digit (Dec.digit (7 mod 10)) = true /\
  (forall j : Z,
      0 <= j <= 99 -> filename_of_index 7 = filename_of_index j -> 7 = j) /\
  base_name (filename_of_index 7) = ("TEST_" ++ two_digits 7)%string /\
  (String.length (base_name (filename_of_index 7)) <= 8)%nat.
Proof.
  apply (proj2 filename_derivation_injective 7). lia.
Defined.

(** At LONG_MAX the increment leaves the range of [long]; with the AVR's
    wrap-around the index becomes LONG_MIN, which the guard lets through. *)
Lemma next_index_at_LONG_MAX : next_index Int.LONG_MAX = Int.LONG_MIN.
Proof. reflexivity. Qed.

(** C10, as the code has it: the guard of create_Filename tests the upper
    bound only.  For a stored long v below LONG_MAX the advanced index is 0
    when v+1 > 99 and v+1 otherwise; for v < -1 it is negative, and since a
    negative index also passes the [index < 10] test the name is "TEST_0",
    the decimal rendering of the negative index (which starts with "-"), and
    ".txt", which is not "TEST_" followed by two digits and ".txt". *)
Theorem create_Filename_lower_bound_unchecked :
  forall (st : state) (v : Z),
    EEPROM.get_long (eeprom_mem st) (calVal_eepromAdress + 4) = v ->
    v < Int.LONG_MAX ->
    let st' := final (create_Filename st) in
    index st' = (if v + 1 >? 99 then 0 else v + 1) /\
    (v < -1 ->
     index st' < 0 /\
     filename st' = ("TEST_0" ++ Dec.ltoa (v + 1) ++ ".txt")%string /\
     Dec.ltoa (v + 1) = String "-"%char (Dec.ultoa (- (v + 1))) /\
     forall d1 d2 : ascii,
       Dec.is_digit d1 = true -> Dec.is_digit d2 = true ->
       filename st'
       <> ("TEST_" ++ String d1 (String d2 EmptyString) ++ ".txt")%string).
Proof.
  intros st v Hv Hmax. change (calVal_eepromAdress + 4) with 4 in Hv.
  cbv zeta. rewrite create_Filename_eq. cbn [final index filename].
  rewrite Hv.
  assert (Hlong : Int.in_long (v + 1)).
  { pose proof (wrap_long_range (EEPROM.get_bits (eeprom_mem st) 4)) as R.
    unfold EEPROM.get_long in Hv. rewrite Hv in R.
    unfold Int.in_long, Int.LONG_MIN, Int.LONG_MAX in *. lia. }
  assert (Hn : next_index v = (if v + 1 >? 99 then 0 else v + 1)).
  { unfold next_index. rewrite wrap_long_id by exact Hlong. reflexivity. }
  rewrite Hn. split; [reflexivity |].
  intros Hneg. destruct (Z.gtb_spec (v + 1) 99) as [G | G]; [lia |].
  split; [lia |].
  assert (Hf : filename_of_index (v + 1)
               = ("TEST_0" ++ Dec.ltoa (v + 1) ++ ".txt")%string).
  { unfold filename_of_index.
    destruct (Z.ltb_spec (v + 1) 10); [reflexivity | lia]. }
  split; [exact Hf |].
  split; [apply ltoa_negative; lia |].
  intros d1 d2 H1 H2 E. rewrite Hf, ltoa_negative in E by lia.
  cbn in E. injection E as E1 E2. subst d2. discriminate H2.
Qed.

Lemma create_Filename_lower_bound_unchecked_witness :
  let st' := final (create_Filename (power_on eeprom_minus_6)) in
  index st' = (if -6 + 1 >? 99 then 0 else -6 + 1) /\
  (-6 < -1 ->
   index st' < 0 /\
   filename st' = ("TEST_0" ++ Dec.ltoa (-6 + 1) ++ ".txt")%string /\
   Dec.ltoa (-6 + 1) = String "-"%char (Dec.ultoa (- (-6 + 1))) /\
   forall d1 d2 : ascii,
     Dec.is_digit d1 = true -> Dec.is_digit d2 = true ->
     filename st'
     <> ("TEST_" ++ String d1 (String d2 EmptyString) ++ ".txt")%string).
Proof.
  apply (create_Filename_lower_bound_unchecked (power_on eeprom_minus_6) (-6)).
  - reflexivity.
  - unfold Int.LONG_MAX. lia.
Defined.

(** C10 as stated fails: from the stored long -6 the advanced index is -5 and
    the name is "TEST_0-5.txt", not "TEST_" + "-5" + ".txt". *)
Lemma negative_index_filename_has_pad_zero :
  let st' := final (create_Filename (power_on eeprom_minus_6)) in
  EEPROM.get_long eeprom_minus_6 (calVal_eepromAdress + 4) = -6 /\
  index st' = -5 /\
  filename st' = "TEST_0-5.txt"%string /\
  filename st' <> ("TEST_" ++ Dec.ltoa (index st') ++ ".txt")%string.
Proof.
  cbv zeta. rewrite create_Filename_eq. cbn [final index filename eeprom_mem power_on].
  split; [reflexivity |]. split; [reflexivity |]. split; [reflexivity |].
  vm_compute. discriminate.
Qed.

(** ** The sample loop, call by call *)

Lemma write_Data_To_LCD_eq (fmt : F32.float -> Z -> string)
    (x : F32.float) (st : state) :
  write_Data_To_LCD fmt x st =
  Done tt (mkState (eeprom_mem st) (t st) (index st) (filename st) (myFile st)
             (newDataReady st) (red_level st) (green_level st)
             (trace st ++ lcd_events fmt (t st) x)).
Proof.
  unfold write_Data_To_LCD, lcd_events, trailing_spaces.
  destruct (F32.lt x (F32.of_int 10) && F32.gt x (F32.of_int 0));
    [| destruct (F32.lt x (F32.of_int 100) && F32.gt x (F32.of_int (-10)));
       [| destruct (F32.lt x (F32.of_int 1000) && F32.gt x (F32.of_int (-100)));
          [| destruct (F32.lt x (F32.of_int 10000)
                       && F32.gt x (F32.of_int (-1000)))]]];
    exec; rewrite <- ?app_assoc; reflexivity.
Qed.

Lemma loop_eq (fmt : F32.float -> Z -> string) (env : loop_env) (st : state) :
  loop fmt env st = Done tt (after_loop fmt env st).
Proof.
  destruct st as [e tv idx fn f ndr r g tr].
  destruct env as [u m1 m2 x ok].
  unfold loop, after_loop, accepts, serialPrintInterval.
  cbn [update millis_test millis_stamp getData open_ok newDataReady t].
  destruct u, ndr; cbn [orb andb];
    try (destruct (Int.wrap_ulong m1 >? Int.wrap_ulong (tv + 0)) eqn:E);
    exec; rewrite ?E; try reflexivity.
  all: rewrite write_Data_To_LCD_eq; destruct ok; exec;
    unfold sample_events, card_events, sample_line;
    rewrite <- ?app_assoc; reflexivity.
Qed.

Lemma loops_eq (fmt : F32.float -> Z -> string) (envs : list loop_env)
    (st : state) :
  loops fmt envs st = Done tt (after_loops fmt envs st).
Proof.
  revert st. induction envs as [| env rest IH]; intros st; [reflexivity |].
  cbn [loops]. unfold bind. rewrite loop_eq. apply IH.
Qed.

Lemma run_eq (fmt : F32.float -> Z -> string) (boot : boot_env)
    (envs : list loop_env) (st : state) :
  run fmt boot envs st =
  match setup boot st with
  | Done _ st' => Done tt (after_loops fmt envs st')
  | Halted st' => Halted st'
  end.
Proof.
  unfold run, bind. destruct (setup boot st); [apply loops_eq | reflexivity].
Qed.

Lemma emitted_app {A : Type} (m : M A) (st : state) (evs : list event) :
  trace (final (m st)) = trace st ++ evs -> emitted m st = evs.
Proof.
  intros H. unfold emitted. rewrite H.
  rewrite skipn_app, skipn_all, Nat.sub_diag. reflexivity.
Qed.

Lemma after_loop_trace (fmt : F32.float -> Z -> string) (env : loop_env)
    (st : state) :
  trace (after_loop fmt env st) =
  trace st
  ++ (if accepts env st
      then sample_events fmt (filename st) (Int.wrap_ulong (millis_stamp env))
             (getData env) (open_ok env)
      else []).
Proof.
  unfold after_loop. destruct (accepts env st); cbn [trace];
    [reflexivity | symmetry; apply app_nil_r].
Qed.

Lemma loop_emitted (fmt : F32.float -> Z -> string) (env : loop_env)
    (st : state) :
  emitted (loop fmt env) st =
  if accepts env st
  then sample_events fmt (filename st) (Int.wrap_ulong (millis_stamp env))
         (getData env) (open_ok env)
  else [].
Proof.
  apply emitted_app. rewrite loop_eq. apply after_loop_trace.
Qed.

Lemma after_loop_frame (fmt : F32.float -> Z -> string) (env : loop_env)
    (st : state) :
  red_level (after_loop fmt env st) = red_level st /\
  green_level (after_loop fmt env st) = green_level st /\
  filename (after_loop fmt env st) = filename st /\
  index (after_loop fmt env st) = index st /\
  eeprom_mem (after_loop fmt env st) = eeprom_mem st.
Proof.
  unfold after_loop. destruct (accepts env st); repeat split.
Qed.

Lemma after_loop_closed (fmt : F32.float -> Z -> string) (env : loop_env)
    (st : state) :
  myFile st = None -> myFile (after_loop fmt env st) = None.
Proof.
  intros H. unfold after_loop. destruct (accepts env st); [reflexivity | exact H].
Qed.

Lemma after_loops_frame (fmt : F32.float -> Z -> string) (envs : list loop_env)
    (st : state) :
  red_level (after_loops fmt envs st) = red_level st /\
  green_level (after_loops fmt envs st) = green_level st /\
  filename (after_loops fmt envs st) = filename st /\
  index (after_loops fmt envs st) = index st /\
  eeprom_mem (after_loops fmt envs st) = eeprom_mem st.
Proof.
  revert st. induction envs as [| env rest IH]; intros st; [repeat split |].
  cbn [after_loops fold_left].
  destruct (IH (after_loop fmt env st)) as (R & G & F & I & E).
  destruct (after_loop_frame fmt env st) as (R' & G' & F' & I' & E').
  unfold after_loops in *. repeat split; congruence.
Qed.

Lemma after_loops_closed (fmt : F32.float -> Z -> string) (envs : list loop_env)
    (st : state) :
  myFile st = None -> myFile (after_loops fmt envs st) = None.
Proof.
  revert st. induction envs as [| env rest IH]; intros st H; [exact H |].
  cbn [after_loops fold_left]. apply IH, after_loop_closed, H.
Qed.

Lemma after_loops_trace (fmt : F32.float -> Z -> string) (envs : list loop_env)
    (st : state) :
  trace (after_loops fmt envs st) =
  trace st
  ++ samples_events fmt (filename st)
       (accepted_samples (newDataReady st) (t st) envs).
Proof.
  revert st. induction envs as [| env rest IH]; intros st.
  - cbn. symmetry. apply app_nil_r.
  - cbn [after_loops fold_left accepted_samples].
    change (fold_left (fun s env0 => after_loop fmt env0 s) rest
              (after_loop fmt env st))
      with (after_loops fmt rest (after_loop fmt env st)).
    rewrite IH, after_loop_trace.
    destruct (after_loop_frame fmt env st) as (_ & _ & F & _ & _). rewrite F.
    unfold accepts, after_loop.
    fold (accepts env st).
    unfold accepts.
    destruct ((update env || newDataReady st)
              && (Int.wrap_ulong (millis_test env)
                    >? Int.wrap_ulong (t st + serialPrintInterval)));
      cbn [newDataReady t samples_events flat_map fst snd].
    + rewrite <- app_assoc. reflexivity.
    + rewrite app_nil_r. reflexivity.
Qed.

Lemma loops_emitted (fmt : F32.float -> Z -> string) (envs : list loop_env)
    (st : state) :
  emitted (loops fmt envs) st =
  samples_events fmt (filename st)
    (accepted_samples (newDataReady st) (t st) envs).
Proof.
  apply emitted_app. rewrite loops_eq. apply after_loops_trace.
Qed.

Lemma serial_lines_app (a b : list event) :
  serial_lines (a ++ b) = serial_lines a ++ serial_lines b.
Proof. apply flat_map_app. Qed.

Lemma file_lines_app (a b : list event) :
  file_lines (a ++ b) = file_lines a ++ file_lines b.
Proof. apply flat_map_app. Qed.

Lemma sample_events_serial (fmt : F32.float -> Z -> string) (fn : string)
    (tv : Z) (i : F32.float) (ok : bool) :
  serial_lines (sample_events fmt fn tv i ok) = [sample_line fmt tv i].
Proof.
  unfold sample_events, lcd_events, card_events.
  destruct (trailing_spaces i), ok; reflexivity.
Qed.

Lemma sample_events_file (fmt : F32.float -> Z -> string) (fn : string)
    (tv : Z) (i : F32.float) (ok : bool) :
  file_lines (sample_events fmt fn tv i ok)
  = if ok then [(fn, sample_line fmt tv i)] else [].
Proof.
  unfold sample_events, lcd_events, card_events.
  destruct (trailing_spaces i), ok; reflexivity.
Qed.

Lemma sample_events_card (fmt : F32.float -> Z -> string) (fn : string)
    (tv : Z) (i : F32.float) (ok : bool) :
  sd_events (sample_events fmt fn tv i ok)
  = card_events fn (sample_line fmt tv i) ok.
Proof.
  unfold sample_events, lcd_events, card_events.
  destruct (trailing_spaces i), ok; reflexivity.
Qed.

Lemma sample_events_no_led (fmt : F32.float -> Z -> string) (fn : string)
    (tv : Z) (i : F32.float) (ok : bool) :
  led_writes (sample_events fmt fn tv i ok) = [].
Proof.
  unfold sample_events, lcd_events, card_events.
  destruct (trailing_spaces i), ok; reflexivity.
Qed.

Lemma samples_events_no_led (fmt : F32.float -> Z -> string) (fn : string)
    (samples : list (Z * F32.float * bool)) :
  led_writes (samples_events fmt fn samples) = [].
Proof.
  induction samples as [| s rest IH]; [reflexivity |].
  cbn [samples_events flat_map]. unfold led_writes in *.
  rewrite filter_app. fold (samples_events fmt fn rest). rewrite IH.
  rewrite app_nil_r. apply sample_events_no_led.
Qed.

Lemma samples_events_serial (fmt : F32.float -> Z -> string) (fn : string)
    (samples : list (Z * F32.float * bool)) :
  serial_lines (samples_events fmt fn samples)
  = map (fun s => sample_line fmt (fst (fst s)) (snd (fst s))) samples.
Proof.
  induction samples as [| s rest IH]; [reflexivity |].
  cbn [samples_events flat_map map]. rewrite serial_lines_app.
  fold (samples_events fmt fn rest). rewrite IH, sample_events_serial.
  reflexivity.
Qed.

Lemma samples_events_file (fmt : F32.float -> Z -> string) (fn : string)
    (samples : list (Z * F32.float * bool)) :
  file_lines (samples_events fmt fn samples)
  = map (fun s => (fn, sample_line fmt (fst (fst s)) (snd (fst s))))
      (filter (fun s => snd s) samples).
Proof.
  induction samples as [| s rest IH]; [reflexivity |].
  cbn [samples_events flat_map filter]. rewrite file_lines_app.
  fold (samples_events fmt fn rest). rewrite IH, sample_events_file.
  destruct (snd s); reflexivity.
Qed.

(** ** The boot *)

Lemma setup_state (boot : boot_env) (e : EEPROM.eeprom) :
  let st := final (setup boot (power_on e)) in
  myFile st = None /\ t st = 0 /\ newDataReady st = false /\
  is_halted (setup boot (power_on e)) = tare_timeout boot.
Proof.
  destruct boot as [b1 b2 b3 b4]; cbv zeta.
  destruct b1, b2, b3, b4; exec_setup; repeat split.
Qed.

Lemma ends_with_intro (l suffix : list event) :
  skipn (List.length l - List.length suffix) l = suffix ->
  exists tr, l = tr ++ suffix.
Proof.
  intros H. exists (firstn (List.length l - List.length suffix) l).
  rewrite <- H at 2. symmetry. apply firstn_skipn.
Qed.

(** ** The durable sink within one pass of the loop *)

(** C3: the file handle is closed whenever a pass of [loop] starts (after the
    boot and after any number of passes), and a pass that starts with the
    handle closed ends with it closed.  For an accepted sample the calls on
    the card within the pass are: open the session file for writing; and when
    it opened, one [println] of the sample line (the line, CR, LF) and the
    close.  A pass that accepts nothing does not touch the card. *)
Theorem durable_file_closed_every_iteration :
  forall fmt : F32.float -> Z -> string,
    (forall (boot : boot_env) (envs : list loop_env) (e : EEPROM.eeprom),
        myFile (final (run fmt boot envs (power_on e))) = None) /\
    (forall (env : loop_env) (st : state),
        myFile st = None ->
        let line :=
          sample_line fmt (Int.wrap_ulong (millis_stamp env)) (getData env) in
        exists st',
          loop fmt env st = Done tt st' /\
          myFile st' = None /\
          sd_events (emitted (loop fmt env) st)
          = (if accepts env st then
               if open_ok env then
                 [SD_open (filename st) FILE_WRITE true;
                  File_println (filename st) line;
                  File_close (filename st)]
               else [SD_open (filename st) FILE_WRITE false]
             else []) /\
          file_bytes (emitted (loop fmt env) st)
          = (if accepts env st && open_ok env
             then println_bytes line else EmptyString)).
Proof.
  intros fmt. split.
  - intros boot envs e. rewrite run_eq.
    destruct (setup_state boot e) as (Hc & _).
    destruct (setup boot (power_on e)) as [[] st1 | st1]; cbn [final] in *.
    + apply after_loops_closed, Hc.
    + exact Hc.
  - intros env st Hc line. exists (after_loop fmt env st).
    split; [apply loop_eq |]. split; [apply after_loop_closed, Hc |].
    rewrite loop_emitted. subst line.
    destruct (accepts env st); cbn [andb]; [| split; reflexivity].
    unfold file_bytes. rewrite sample_events_card, sample_events_file.
    unfold card_events. destruct (open_ok env); split; reflexivity.
Qed.

Lemma durable_file_closed_every_iteration_witness :
  let st := final (setup boot_ok (power_on eeprom_99)) in
  let line :=
    sample_line String_float_table
      (Int.wrap_ulong (millis_stamp poll_card_ok)) (getData poll_card_ok) in
  exists st',
    loop String_float_table poll_card_ok st = Done tt st' /\
    myFile st' = None /\
    sd_events (emitted (loop String_float_table poll_card_ok) st)
    = (if accepts poll_card_ok st then
         if open_ok poll_card_ok then
           [SD_open (filename st) FILE_WRITE true;
            File_println (filename st) line;
            File_close (filename st)]
         else [SD_open (filename st) FILE_WRITE false]
       else []) /\
    file_bytes (emitted (loop String_float_table poll_card_ok) st)
    = (if accepts poll_card_ok st && open_ok poll_card_ok
       then println_bytes line else EmptyString).
Proof.
  apply (proj2 (durable_file_closed_every_iteration String_float_table)
           poll_card_ok (final (setup boot_ok (power_on eeprom_99)))).
  reflexivity.
Defined.

(** C4: when the open for an accepted sample fails, the sample's line still
    goes to [Serial], nothing is written to the card, the open is attempted
    once, the pass ends normally so that the following passes run from the
    resulting state, and neither pin of the status light is written. *)
Theorem failed_open_drops_sample_from_card_only :
  forall (fmt : F32.float -> Z -> string) (env : loop_env) (st : state),
    accepts env st = true ->
    open_ok env = false ->
    let line :=
      sample_line fmt (Int.wrap_ulong (millis_stamp env)) (getData env) in
    let evs := emitted (loop fmt env) st in
    exists st',
      loop fmt env st = Done tt st' /\
      serial_lines evs = [line] /\
      file_lines evs = [] /\
      filter is_open_event evs = [SD_open (filename st) FILE_WRITE false] /\
      led_writes evs = [] /\
      red_level st' = red_level st /\
      green_level st' = green_level st /\
      indicator st' = indicator st /\
      (forall rest : list loop_env,
          loops fmt (env :: rest) st = loops fmt rest st').
Proof.
  intros fmt env st Ha Ho line evs. exists (after_loop fmt env st).
  split; [apply loop_eq |].
  subst evs line. rewrite loop_emitted, Ha.
  rewrite sample_events_serial, sample_events_file, sample_events_no_led, Ho.
  split; [reflexivity |]. split; [reflexivity |].
  split.
  { unfold sample_events, lcd_events, card_events.
    destruct (trailing_spaces (getData env)); reflexivity. }
  split; [reflexivity |].
  destruct (after_loop_frame fmt env st) as (R & G & _).
  split; [exact R |]. split; [exact G |].
  split; [unfold indicator; rewrite R, G; reflexivity |].
  intros rest. cbn [loops]. unfold bind. rewrite loop_eq. reflexivity.
Qed.

Lemma failed_open_drops_sample_from_card_only_witness :
  let st := final (setup boot_ok (power_on eeprom_99)) in
  let line :=
    sample_line String_float_table
      (Int.wrap_ulong (millis_stamp poll_card_fails)) (getData poll_card_fails) in
  let evs := emitted (loop String_float_table poll_card_fails) st in
  exists st',
    loop String_float_table poll_card_fails st = Done tt st' /\
    serial_lines evs = [line] /\
    file_lines evs = [] /\
    filter is_open_event evs = [SD_open (filename st) FILE_WRITE false] /\
    led_writes evs = [] /\
    red_level st' = red_level st /\
    green_level st' = green_level st /\
    indicator st' = indicator st /\
    (forall rest : list loop_env,
        loops String_float_table (poll_card_fails :: rest) st
        = loops String_float_table rest st').
Proof.
  apply (failed_open_drops_sample_from_card_only String_float_table
           poll_card_fails (final (setup boot_ok (power_on eeprom_99)))).
  - reflexivity.
  - reflexivity.
Defined.

(** ** The two sinks *)

(** C5 as stated fails: a sample accepted while the card does not open reaches
    [Serial] and no file.  Here the reading 7.5 at 1200 ms after a good
    boot. *)
Lemma failed_open_sample_reaches_serial_only :
  let st := final (setup boot_ok (power_on eeprom_99)) in
  let evs := emitted (loop String_float_table poll_card_fails) st in
  accepts poll_card_fails st = true /\
  serial_lines evs = ["1200,7.5000"%string] /\
  file_lines evs = [].
Proof. vm_compute. repeat split. Qed.

(** C5, as the code has it: in every pass [Serial] receives the line
    "<t>,<reading with 4 decimals>" of an accepted sample, and the session file
    receives the very same line when its open succeeds and nothing otherwise;
    a pass that accepts no sample sends nothing to either sink.  Over any
    sequence of passes the lines on [Serial] are those of the accepted samples
    in the order of acceptance, and the lines in the file are those of the
    accepted samples whose open succeeded, in the same order. *)
Theorem both_sinks_same_line_in_order :
  forall fmt : F32.float -> Z -> string,
    (forall (env : loop_env) (st : state),
        let line :=
          (Dec.ultoa (Int.wrap_ulong (millis_stamp env)) ++ ","
           ++ fmt (getData env) 4)%string in
        let evs := emitted (loop fmt env) st in
        serial_lines evs = (if accepts env st then [line] else []) /\
        file_lines evs
        = (if accepts env st && open_ok env then [(filename st, line)] else []))
    /\
    (forall (envs : list loop_env) (st : state),
        let samples := accepted_samples (newDataReady st) (t st) envs in
        let line := fun s : Z * F32.float * bool =>
          (Dec.ultoa (fst (fst s)) ++ "," ++ fmt (snd (fst s)) 4)%string in
        let evs := emitted (loops fmt envs) st in
        serial_lines evs = map line samples /\
        file_lines evs
        = map (fun s => (filename st, line s)) (filter (fun s => snd s) samples))
    /\
    (forall (boot : boot_env) (envs : list loop_env) (e : EEPROM.eeprom),
        let st0 := final (setup boot (power_on e)) in
        trace (final (run fmt boot envs (power_on e)))
        = trace st0
          ++ (if tare_timeout boot then []
              else samples_events fmt (filename st0)
                     (accepted_samples false 0 envs))).
Proof.
  intros fmt. split; [| split].
  - intros env st line evs. subst evs line. rewrite loop_emitted.
    destruct (accepts env st); cbn [andb]; [| split; reflexivity].
    rewrite sample_events_serial, sample_events_file.
    destruct (open_ok env); split; reflexivity.
  - intros envs st samples line evs. subst evs. rewrite loops_emitted.
    rewrite samples_events_serial, samples_events_file. split; reflexivity.
  - intros boot envs e st0. subst st0. rewrite run_eq.
    destruct (setup_state boot e) as (_ & Ht & Hn & Hh).
    destruct (setup boot (power_on e)) as [[] st1 | st1];
      cbn [final is_halted] in *; rewrite <- Hh.
    + rewrite after_loops_trace, Ht, Hn. reflexivity.
    + symmetry. apply app_nil_r.
Qed.

(** ** The tare timeout *)

(** C6: when the tare times out, [setup] never returns: the run is halted
    whatever polls would follow and its final state is that of the boot; the
    last calls made are the red light forced on ([greenLight(false)]) and the
    message "LOAD CELL INIT FAIL!" at the top of the display; the indicator is
    unhealthy; no reading is ever fetched and nothing was sent to [Serial] or
    the card by the loop. *)
Theorem tare_timeout_is_terminal :
  forall (fmt : F32.float -> Z -> string) (boot : boot_env)
         (envs : list loop_env) (e : EEPROM.eeprom),
    tare_timeout boot = true ->
    let o := run fmt boot envs (power_on e) in
    is_halted o = true /\
    final o = final (setup boot (power_on e)) /\
    o = run fmt boot [] (power_on e) /\
    indicator (final o) = Unhealthy /\
    (exists tr,
        trace (final o)
        = tr ++ [DigitalWrite RED true; DigitalWrite GREEN false;
                 Lcd_setCursor 0 0; Lcd_print "LOAD CELL INIT FAIL!"]) /\
    existsb is_getData (trace (final o)) = false.
Proof.
  intros fmt boot envs e Ht o. subst o. rewrite !run_eq.
  destruct boot as [b1 b2 b3 b4]. cbn [tare_timeout] in Ht. subst b4.
  destruct b1, b2, b3; exec_setup;
    (split; [reflexivity |]); (split; [reflexivity |]);
    (split; [reflexivity |]); (split; [reflexivity |]);
    (split; [apply ends_with_intro; reflexivity | reflexivity]).
Qed.

Lemma tare_timeout_is_terminal_witness :
  let o := run String_float_table boot_tare_timeout
             [poll_card_ok; poll_card_fails] (power_on eeprom_99) in
  is_halted o = true /\
  final o = final (setup boot_tare_timeout (power_on eeprom_99)) /\
  o = run String_float_table boot_tare_timeout [] (power_on eeprom_99) /\
  indicator (final o) = Unhealthy /\
  (exists tr,
      trace (final o)
      = tr ++ [DigitalWrite RED true; DigitalWrite GREEN false;
               Lcd_setCursor 0 0; Lcd_print "LOAD CELL INIT FAIL!"]) /\
  existsb is_getData (trace (final o)) = false.
Proof.
  apply (tare_timeout_is_terminal String_float_table boot_tare_timeout
           [poll_card_ok; poll_card_fails] eeprom_99).
  reflexivity.
Defined.

(** ** The status light *)

(** C7 as stated fails: with the card opening and the tare timing out the
    light is written by three calls of [greenLight] during the boot (red,
    green, red again) and ends unhealthy although the durable sink was
    initialised. *)
Lemma status_light_forced_red_after_card_ok :
  let st0 := final (setup boot_tare_timeout (power_on eeprom_99)) in
  open_write_ok boot_tare_timeout = true /\
  indicator st0 = Unhealthy /\
  led_writes (trace st0)
  = [DigitalWrite RED true; DigitalWrite GREEN false;
     DigitalWrite RED false; DigitalWrite GREEN true;
     DigitalWrite RED true; DigitalWrite GREEN false].
Proof. vm_compute. repeat split. Qed.

(** C7, as the code has it: during the boot [greenLight] is called first with
    false, then by [init_SD] with the result of opening the session file, and
    once more with false when the tare times out.  When [setup] returns, the
    indicator is healthy exactly when the session file opened; after a tare
    timeout it is unhealthy.  No pass of [loop] writes either pin: after any
    sequence of polls, whatever the card answers, the pins and the indicator
    are as the boot left them. *)
Theorem status_light_fixed_after_boot :
  forall (fmt : F32.float -> Z -> string) (boot : boot_env)
         (envs : list loop_env) (e : EEPROM.eeprom),
    let st0 := final (setup boot (power_on e)) in
    let st := final (run fmt boot envs (power_on e)) in
    led_writes (trace st0)
    = [DigitalWrite RED true; DigitalWrite GREEN false;
       DigitalWrite RED (negb (open_write_ok boot));
       DigitalWrite GREEN (open_write_ok boot)]
      ++ (if tare_timeout boot
          then [DigitalWrite RED true; DigitalWrite GREEN false] else []) /\
    indicator st0
    = (if tare_timeout boot then Unhealthy
       else if open_write_ok boot then Healthy else Unhealthy) /\
    red_level st = red_level st0 /\
    green_level st = green_level st0 /\
    indicator st = indicator st0 /\
    led_writes (trace st) = led_writes (trace st0) /\
    (forall (env : loop_env) (s : state),
        led_writes (emitted (loop fmt env) s) = [] /\
        indicator (final (loop fmt env s)) = indicator s).
Proof.
  intros fmt boot envs e st0 st.
  assert (Hboot :
    led_writes (trace st0)
    = [DigitalWrite RED true; DigitalWrite GREEN false;
       DigitalWrite RED (negb (open_write_ok boot));
       DigitalWrite GREEN (open_write_ok boot)]
      ++ (if tare_timeout boot
          then [DigitalWrite RED true; DigitalWrite GREEN false] else []) /\
    indicator st0
    = (if tare_timeout boot then Unhealthy
       else if open_write_ok boot then Healthy else Unhealthy)).
  { subst st0 st. destruct boot as [b1 b2 b3 b4].
    destruct b1, b2, b3, b4; exec_setup; split; reflexivity. }
  destruct Hboot as [Hw Hi]. split; [exact Hw |]. split; [exact Hi |].
  assert (Hrun : red_level st = red_level st0 /\ green_level st = green_level st0
                 /\ led_writes (trace st) = led_writes (trace st0)).
  { subst st st0. rewrite run_eq.
    destruct (setup boot (power_on e)) as [[] st1 | st1]; cbn [final];
      [| repeat split].
    destruct (after_loops_frame fmt envs st1) as (R & G & _).
    split; [exact R |]. split; [exact G |].
    rewrite after_loops_trace. unfold led_writes. rewrite filter_app.
    fold (led_writes (samples_events fmt (filename st1)
                        (accepted_samples (newDataReady st1) (t st1) envs))).
    rewrite samples_events_no_led. apply app_nil_r. }
  destruct Hrun as (R & G & W).
  split; [exact R |]. split; [exact G |].
  split; [unfold indicator; rewrite R, G; reflexivity |].
  split; [exact W |].
  intros env s. rewrite loop_emitted, loop_eq. cbn [final].
  destruct (after_loop_frame fmt env s) as (R' & G' & _).
  split.
  - destruct (accepts env s); [apply sample_events_no_led | reflexivity].
  - unfold indicator. rewrite R', G'. reflexivity.
Qed.

(** ** Binary32 comparisons and the values they compare *)

Lemma digits2_pos_bounds (m : positive) :
  2 ^ (Z.pos (digits2_pos m) - 1) <= Z.pos m < 2 ^ Z.pos (digits2_pos m).
Proof.
  induction m as [p IH | p IH |]; cbn [digits2_pos];
    [ | | cbn; lia ];
    rewrite Pos2Z.inj_succ;
    set (d := Z.pos (digits2_pos p)) in *;
    assert (Hd : 0 < d) by (subst d; lia);
    replace (Z.succ d - 1) with (Z.succ (d - 1)) by lia;
    rewrite (Z.pow_succ_r 2 (d - 1)) by lia;
    replace (Z.succ d) with (Z.succ (d - 1) + 1) by lia;
    rewrite (Z.pow_add_r 2 (Z.succ (d - 1)) 1) by lia;
    rewrite (Z.pow_succ_r 2 (d - 1)) by lia;
    replace d with (Z.succ (d - 1)) in IH at 2 by lia;
    rewrite (Z.pow_succ_r 2 (d - 1)) in IH by lia;
    change (2 ^ 1) with 2; lia.
Qed.

(** A canonical binary32 mantissa has at most 24 bits, and exactly 24 unless
    the exponent is the lowest one. *)
Lemma bounded_inv (m : positive) (e : Z) :
  bounded F32.prec F32.emax m e = true ->
  -149 <= e <= 104 /\ Z.pos m < 2 ^ 24 /\ (-149 < e -> 2 ^ 23 <= Z.pos m).
Proof.
  unfold bounded, canonical_mantissa, fexp, emin, F32.prec, F32.emax.
  intros H. apply andb_prop in H. destruct H as [Hc He].
  apply Z.eqb_eq in Hc. apply Z.leb_le in He.
  pose proof (digits2_pos_bounds m) as [Lo Hi].
  set (d := Z.pos (digits2_pos m)) in *.
  assert (Hd : 0 < d) by (subst d; lia).
  split; [lia |]. split.
  - apply Z.lt_le_trans with (1 := Hi). apply Z.pow_le_mono_r; lia.
  - intros He'. assert (d = 24) as Hd24 by lia. rewrite Hd24 in Lo. exact Lo.
Qed.

Lemma pow2_step (a b : Z) : 0 <= a -> a < b -> 0 < 2 ^ a /\ 2 * 2 ^ a <= 2 ^ b.
Proof.
  intros Ha Hb. split; [apply Z.pow_pos_nonneg; lia |].
  rewrite <- Z.pow_succ_r by lia. apply Z.pow_le_mono_r; lia.
Qed.

Lemma scaled_lt (m1 m2 : positive) (e1 e2 : Z) :
  bounded F32.prec F32.emax m1 e1 = true ->
  bounded F32.prec F32.emax m2 e2 = true ->
  e1 < e2 ->
  Z.pos m1 * 2 ^ (e1 + 149) < Z.pos m2 * 2 ^ (e2 + 149).
Proof.
  intros B1 B2 H.
  apply bounded_inv in B1. apply bounded_inv in B2.
  destruct B1 as (R1 & U1 & _). destruct B2 as (R2 & _ & L2).
  specialize (L2 ltac:(lia)).
  destruct (pow2_step (e1 + 149) (e2 + 149) ltac:(lia) ltac:(lia)) as [PA PB].
  change (2 ^ 24) with 16777216 in U1. change (2 ^ 23) with 8388608 in L2.
  nia.
Qed.

Lemma pos_compare_scaled (m1 m2 : positive) (e1 e2 : Z) :
  bounded F32.prec F32.emax m1 e1 = true ->
  bounded F32.prec F32.emax m2 e2 = true ->
  match e1 ?= e2 with
  | Lt => Lt
  | Gt => Gt
  | Eq => Pos.compare_cont Eq m1 m2
  end
  = (Z.pos m1 * 2 ^ (e1 + 149) ?= Z.pos m2 * 2 ^ (e2 + 149)).
Proof.
  intros B1 B2. destruct (Z.compare_spec e1 e2) as [E | L | G].
  - subst e2. pose proof (bounded_inv _ _ B1) as (R & _).
    assert (0 < 2 ^ (e1 + 149)) by (apply Z.pow_pos_nonneg; lia).
    change (Pos.compare_cont Eq m1 m2) with (Z.pos m1 ?= Z.pos m2).
    destruct (Z.compare_spec (Z.pos m1) (Z.pos m2)); symmetry;
      [apply Z.compare_eq_iff | apply Z.compare_lt_iff | apply Z.compare_gt_iff];
      nia.
  - symmetry. apply Z.compare_lt_iff. apply scaled_lt; assumption.
  - symmetry. apply Z.compare_gt_iff. apply scaled_lt; assumption.
Qed.

(** On finite binary32 numbers the comparison of the sketch is the comparison
    of the values. *)
Lemma SFcompare_scaled (x y : F32.float) :
  F32.valid x = true -> F32.valid y = true ->
  F32.is_finite x = true -> F32.is_finite y = true ->
  SFcompare x y = Some (F32.scaled x ?= F32.scaled y).
Proof.
  intros Vx Vy Fx Fy.
  destruct x as [sx | sx | | sx mx ex]; try discriminate Fx;
  destruct y as [sy | sy | | sy my ey]; try discriminate Fy;
    cbn [SFcompare F32.scaled F32.valid valid_binary] in *.
  - reflexivity.
  - pose proof (bounded_inv _ _ Vy) as (R & _).
    assert (0 < 2 ^ (ey + 149)) by (apply Z.pow_pos_nonneg; lia).
    destruct sy; f_equal; symmetry;
      [apply Z.compare_gt_iff | apply Z.compare_lt_iff]; nia.
  - pose proof (bounded_inv _ _ Vx) as (R & _).
    assert (0 < 2 ^ (ex + 149)) by (apply Z.pow_pos_nonneg; lia).
    destruct sx; f_equal; symmetry;
      [apply Z.compare_lt_iff | apply Z.compare_gt_iff]; nia.
  - pose proof (bounded_inv _ _ Vx) as (Rx & _).
    pose proof (bounded_inv _ _ Vy) as (Ry & _).
    assert (0 < 2 ^ (ex + 149)) by (apply Z.pow_pos_nonneg; lia).
    assert (0 < 2 ^ (ey + 149)) by (apply Z.pow_pos_nonneg; lia).
    destruct sx, sy; f_equal.
    + change (Z.neg mx) with (- Z.pos mx). change (Z.neg my) with (- Z.pos my).
      rewrite !Z.mul_opp_l, Z.compare_opp.
      rewrite <- (pos_compare_scaled my mx ey ex Vy Vx).
      rewrite (Z.compare_antisym ey ex).
      destruct (ey ?= ex); cbn [CompOpp]; try reflexivity.
      symmetry. apply (Pos.compare_antisym mx my).
    + symmetry. apply Z.compare_lt_iff. nia.
    + symmetry. apply Z.compare_gt_iff. nia.
    + apply pos_compare_scaled; assumption.
Qed.

Lemma to_Q_scaled (x : F32.float) :
  F32.valid x = true ->
  (F32.to_Q x * inject_Z (2 ^ 149) == inject_Z (F32.scaled x))%Q.
Proof.
  destruct x as [s | s | | s m e]; intros V; cbn [F32.to_Q F32.scaled];
    try (rewrite Qmult_0_l; reflexivity).
  pose proof (bounded_inv _ _ V) as (R & _).
  rewrite inject_Z_mult.
  rewrite (Zpower_Qpower 2 (e + 149)) by lia.
  rewrite (Zpower_Qpower 2 149) by lia.
  rewrite Qpower_plus by discriminate.
  apply Qeq_sym, Qmult_assoc.
Qed.

Lemma Qlt_scaled_l (x : F32.float) (n : Z) :
  F32.valid x = true ->
  (F32.to_Q x < inject_Z n)%Q <-> (F32.scaled x < n * 2 ^ 149)%Z.
Proof.
  intros V. rewrite Zlt_Qlt, inject_Z_mult, <- (to_Q_scaled x V).
  symmetry. apply Qmult_lt_r. reflexivity.
Qed.

Lemma Qlt_scaled_r (x : F32.float) (n : Z) :
  F32.valid x = true ->
  (inject_Z n < F32.to_Q x)%Q <-> (n * 2 ^ 149 < F32.scaled x)%Z.
Proof.
  intros V. rewrite Zlt_Qlt, inject_Z_mult, <- (to_Q_scaled x V).
  symmetry. apply Qmult_lt_r. reflexivity.
Qed.

Lemma Qltb_lt (a b : Q) : Qltb a b = true <-> (a < b)%Q.
Proof.
  unfold Qltb. rewrite negb_true_iff. split.
  - intros H. apply Qnot_le_lt. intros L. apply Qle_bool_iff in L. congruence.
  - intros H. destruct (Qle_bool b a) eqn:E; [| reflexivity].
    apply Qle_bool_iff in E. exfalso. apply (Qlt_not_le _ _ H E).
Qed.

(** A comparison of a finite reading with an integer constant that binary32
    holds exactly is the comparison of the reading's value with the integer. *)
Lemma compare_of_int (x : F32.float) (n : Z) :
  F32.valid x = true -> F32.is_finite x = true ->
  F32.valid (F32.of_int n) = true -> F32.is_finite (F32.of_int n) = true ->
  F32.scaled (F32.of_int n) = n * 2 ^ 149 ->
  F32.lt x (F32.of_int n) = Qltb (F32.to_Q x) (inject_Z n) /\
  F32.gt x (F32.of_int n) = Qltb (inject_Z n) (F32.to_Q x).
Proof.
  intros Vx Fx Vn Fn Sn. unfold F32.lt, F32.gt, SFltb.
  rewrite (SFcompare_scaled x _ Vx Vn Fx Fn).
  rewrite (SFcompare_scaled _ x Vn Vx Fn Fx). rewrite Sn.
  split; apply eq_true_iff_eq; rewrite Qltb_lt.
  - rewrite Qlt_scaled_l by exact Vx.
    destruct (Z.compare_spec (F32.scaled x) (n * 2 ^ 149));
      split; intros; try lia; try discriminate; reflexivity.
  - rewrite Qlt_scaled_r by exact Vx.
    destruct (Z.compare_spec (n * 2 ^ 149) (F32.scaled x));
      split; intros; try lia; try discriminate; reflexivity.
Qed.

Lemma in_bracket_value (lo hi : Z) (x : F32.float) :
  F32.valid x = true -> F32.is_finite x = true ->
  F32.valid (F32.of_int lo) = true -> F32.is_finite (F32.of_int lo) = true ->
  F32.scaled (F32.of_int lo) = lo * 2 ^ 149 ->
  F32.valid (F32.of_int hi) = true -> F32.is_finite (F32.of_int hi) = true ->
  F32.scaled (F32.of_int hi) = hi * 2 ^ 149 ->
  in_bracket lo hi x
  = Qltb (F32.to_Q x) (inject_Z hi) && Qltb (inject_Z lo) (F32.to_Q x).
Proof.
  intros Vx Fx Vl Fl Sl Vh Fh Sh. unfold in_bracket.
  rewrite (proj1 (compare_of_int x hi Vx Fx Vh Fh Sh)).
  rewrite (proj2 (compare_of_int x lo Vx Fx Vl Fl Sl)). reflexivity.
Qed.

Lemma trailing_spaces_brackets (x : F32.float) :
  trailing_spaces x
  = (if in_bracket 0 10 x then 4
     else if in_bracket (-10) 100 x then 3
     else if in_bracket (-100) 1000 x then 2
     else if in_bracket (-1000) 10000 x then 1
     else 0)%nat.
Proof. reflexivity. Qed.

Lemma trailing_spaces_value (x : F32.float) :
  F32.valid x = true ->
  trailing_spaces x
  = (if F32.is_finite x then padding_table (F32.to_Q x) else 0%nat).
Proof.
  intros V. destruct (F32.is_finite x) eqn:F.
  - rewrite trailing_spaces_brackets. unfold padding_table.
    rewrite !(in_bracket_value _ _ x V F) by (vm_compute; reflexivity).
    reflexivity.
  - destruct x as [s | s | | s m e]; try discriminate F.
    + destruct s; reflexivity.
    + reflexivity.
Qed.

(** ** The display padding *)

Lemma write_Data_To_LCD_emitted (fmt : F32.float -> Z -> string)
    (x : F32.float) (st : state) :
  emitted (write_Data_To_LCD fmt x) st = lcd_events fmt (t st) x.
Proof.
  apply emitted_app. rewrite write_Data_To_LCD_eq. reflexivity.
Qed.

Lemma rendered_suffix_spaces (fmt : F32.float -> Z -> string)
    (x : F32.float) (st : state) :
  rendered_suffix fmt x st = spaces (trailing_spaces x).
Proof.
  unfold rendered_suffix. rewrite write_Data_To_LCD_emitted.
  unfold lcd_events. cbn [app skipn].
  destruct (trailing_spaces x); reflexivity.
Qed.

(** C8: after the reading (2 decimals) [write_Data_To_LCD] prints blanks
    according to the first bracket the reading falls in, tried in the order of
    the code: below 10 and above 0, four; below 100 and above -10, three;
    below 1000 and above -100, two; below 10000 and above -1000, one; in no
    bracket, nothing is printed.  For a binary32 reading the brackets are
    brackets of its exact value; a NaN or an infinity is in none. *)
Theorem display_padding_brackets :
  forall (fmt : F32.float -> Z -> string) (x : F32.float) (st : state),
    F32.valid x = true ->
    emitted (write_Data_To_LCD fmt x) st
    = [Lcd_setCursor 0 2; Lcd_print ("Time (ms): " ++ Dec.ultoa (t st))%string;
       Lcd_setCursor 0 3; Lcd_print ("Thrust (g): " ++ fmt x 2)%string]
      ++ match trailing_spaces x with
         | O => []
         | S _ => [Lcd_print (spaces (trailing_spaces x))]
         end /\
    rendered_suffix fmt x st = spaces (trailing_spaces x) /\
    trailing_spaces x
    = (if in_bracket 0 10 x then 4
       else if in_bracket (-10) 100 x then 3
       else if in_bracket (-100) 1000 x then 2
       else if in_bracket (-1000) 10000 x then 1
       else 0)%nat /\
    trailing_spaces x
    = (if F32.is_finite x then padding_table (F32.to_Q x) else 0%nat).
Proof.
  intros fmt x st V.
  split; [apply write_Data_To_LCD_emitted |].
  split; [apply rendered_suffix_spaces |].
  split; [apply trailing_spaces_brackets | apply trailing_spaces_value, V].
Qed.

Lemma display_padding_brackets_witness :
  let st := power_on eeprom_99 in
  let fmt := String_float_table in
  let x := F32.f7_5 in
  emitted (write_Data_To_LCD fmt x) st
  = [Lcd_setCursor 0 2; Lcd_print ("Time (ms): " ++ Dec.ultoa (t st))%string;
     Lcd_setCursor 0 3; Lcd_print ("Thrust (g): " ++ fmt x 2)%string]
    ++ match trailing_spaces x with
       | O => []
       | S _ => [Lcd_print (spaces (trailing_spaces x))]
       end /\
  rendered_suffix fmt x st = spaces (trailing_spaces x) /\
  trailing_spaces x
  = (if in_bracket 0 10 x then 4
     else if in_bracket (-10) 100 x then 3
     else if in_bracket (-100) 1000 x then 2
     else if in_bracket (-1000) 10000 x then 1
     else 0)%nat /\
  trailing_spaces x
  = (if F32.is_finite x then padding_table (F32.to_Q x) else 0%nat).
Proof.
  apply (display_padding_brackets String_float_table F32.f7_5
           (power_on eeprom_99)).
  reflexivity.
Defined.

(** The two readings of the padding example are the binary32 numbers 7.5 and
    7500.5, both exact. *)
Lemma example_readings_exact :
  F32.f7_5 = binary_normalize F32.prec F32.emax 15 (-1) false /\
  F32.f7500_5 = binary_normalize F32.prec F32.emax 15001 (-1) false /\
  (F32.to_Q F32.f7_5 == 15 # 2)%Q /\
  (F32.to_Q F32.f7500_5 == 15001 # 2)%Q /\
  F32.valid F32.f7_5 = true /\ F32.valid F32.f7500_5 = true.
Proof. repeat split. Qed.

(** C9 as stated fails: 7.5 gets four blanks and 7500.5 gets one (it is below
    10000 and above -1000), so the difference is three, not four. *)
Lemma padding_difference_is_not_four :
  let st := power_on eeprom_99 in
  String.length (rendered_suffix String_float_table F32.f7_5 st) = 4%nat /\
  String.length (rendered_suffix String_float_table F32.f7500_5 st) = 1%nat /\
  String.length (rendered_suffix String_float_table F32.f7_5 st)
  <> (String.length (rendered_suffix String_float_table F32.f7500_5 st) + 4)%nat.
Proof. vm_compute. repeat split. discriminate. Qed.

(** C9, as the code has it: the suffix printed for the reading 7.5 is four
    blanks, the one for 7500.5 is one blank; the first has exactly three
    blanks more than the second. *)
Theorem padding_7_5_three_more_than_7500_5 :
  forall (fmt : F32.float -> Z -> string) (st : state),
    rendered_suffix fmt F32.f7_5 st = "    "%string /\
    rendered_suffix fmt F32.f7500_5 st = " "%string /\
    String.length (rendered_suffix fmt F32.f7_5 st)
    = (String.length (rendered_suffix fmt F32.f7500_5 st) + 3)%nat /\
    padding_table (15 # 2) = 4%nat /\
    padding_table (15001 # 2) = 1%nat.
Proof.
  intros fmt st. rewrite !rendered_suffix_spaces. repeat split.
Qed.

(** ** What a whole run leaves in the EEPROM *)

Lemma setup_session (boot : boot_env) (e : EEPROM.eeprom) :
  let st0 := final (setup boot (power_on e)) in
  let idx := next_index (EEPROM.get_long e 4) in
  index st0 = idx /\
  filename st0 = filename_of_index idx /\
  eeprom_mem st0 = EEPROM.put_long e 4 idx /\
  filter is_eeprom_put (trace st0) = [EEPROM_put 4 idx] /\
  red_level st0 = negb (green_level st0).
Proof.
  destruct boot as [b1 b2 b3 b4]; cbv zeta.
  destruct b1, b2, b3, b4; exec_setup; repeat split.
Qed.

Lemma sample_events_no_put (fmt : F32.float -> Z -> string) (fn : string)
    (tv : Z) (i : F32.float) (ok : bool) :
  filter is_eeprom_put (sample_events fmt fn tv i ok) = [].
Proof.
  unfold sample_events, lcd_events, card_events.
  destruct (trailing_spaces i), ok; reflexivity.
Qed.

Lemma samples_events_no_put (fmt : F32.float -> Z -> string) (fn : string)
    (samples : list (Z * F32.float * bool)) :
  filter is_eeprom_put (samples_events fmt fn samples) = [].
Proof.
  induction samples as [| s rest IH]; [reflexivity |].
  cbn [samples_events flat_map]. rewrite filter_app.
  fold (samples_events fmt fn rest). rewrite IH, app_nil_r.
  apply sample_events_no_put.
Qed.

Lemma run_trace (fmt : F32.float -> Z -> string) (boot : boot_env)
    (envs : list loop_env) (e : EEPROM.eeprom) :
  let st0 := final (setup boot (power_on e)) in
  trace (final (run fmt boot envs (power_on e)))
  = trace st0
    ++ (if tare_timeout boot then []
        else samples_events fmt (filename st0) (accepted_samples false 0 envs)).
Proof.
  cbv zeta. rewrite run_eq.
  destruct (setup_state boot e) as (_ & Ht & Hn & Hh).
  destruct (setup boot (power_on e)) as [[] st1 | st1];
    cbn [final is_halted] in *; rewrite <- Hh.
  - rewrite after_loops_trace, Ht, Hn. reflexivity.
  - symmetry. apply app_nil_r.
Qed.

Lemma run_frame (fmt : F32.float -> Z -> string) (boot : boot_env)
    (envs : list loop_env) (e : EEPROM.eeprom) :
  let st0 := final (setup boot (power_on e)) in
  let st := final (run fmt boot envs (power_on e)) in
  red_level st = red_level st0 /\
  green_level st = green_level st0 /\
  filename st = filename st0 /\
  index st = index st0 /\
  eeprom_mem st = eeprom_mem st0.
Proof.
  cbv zeta. rewrite run_eq.
  destruct (setup boot (power_on e)) as [[] st1 | st1]; cbn [final];
    [apply after_loops_frame | repeat split].
Qed.

Lemma byte_of_range (v k : Z) : 0 <= k -> Int.byte_of v k mod 256 = Int.byte_of v k.
Proof.
  intros Hk. rewrite byte_of_div by exact Hk. apply Z.mod_mod. lia.
Qed.

Lemma read_put_long_inside (e : EEPROM.eeprom) (a v k : Z) :
  0 <= k <= 3 ->
  EEPROM.read (EEPROM.put_long e a v) (a + k) = Int.byte_of v k.
Proof.
  intros Hk. unfold EEPROM.put_long.
  assert (C : k = 0 \/ k = 1 \/ k = 2 \/ k = 3) by lia.
  destruct C as [-> | [-> | [-> | ->]]];
    rewrite ?Z.add_0_r;
    repeat (rewrite read_update_same || rewrite read_update_other by lia);
    apply byte_of_range; lia.
Qed.

(** X1: over a whole run (boot and any polls, whatever the devices answer)
    the sketch writes the EEPROM once, the session index at cells 4..7; every
    other cell, the calibration factor at 0..3 included, reads as it did
    before the boot, and the stored index is the [index] of the run. *)
Theorem run_writes_only_the_session_index :
  forall (fmt : F32.float -> Z -> string) (boot : boot_env)
         (envs : list loop_env) (e : EEPROM.eeprom),
    let st := final (run fmt boot envs (power_on e)) in
    (forall a : Z,
        EEPROM.read (eeprom_mem st) a
        = if (4 <=? a) && (a <=? 7) then Int.byte_of (index st) (a - 4)
          else EEPROM.read e a) /\
    EEPROM.get_bits (eeprom_mem st) calVal_eepromAdress
    = EEPROM.get_bits e calVal_eepromAdress /\
    EEPROM.get_long (eeprom_mem st) (calVal_eepromAdress + 4) = index st /\
    filter is_eeprom_put (trace st)
    = [EEPROM_put (calVal_eepromAdress + 4) (index st)].
Proof.
  intros fmt boot envs e st.
  destruct (run_frame fmt boot envs e) as (_ & _ & _ & Hi & He).
  destruct (setup_session boot e) as (Hi0 & _ & He0 & Hp0 & _).
  fold st in Hi, He. rewrite Hi0 in Hi. rewrite He0 in He.
  change (calVal_eepromAdress + 4) with 4. change calVal_eepromAdress with 0.
  rewrite He, Hi.
  set (idx := next_index (EEPROM.get_long e 4)).
  assert (Hcell : forall a : Z,
    EEPROM.read (EEPROM.put_long e 4 idx) a
    = if (4 <=? a) && (a <=? 7) then Int.byte_of idx (a - 4)
      else EEPROM.read e a).
  { intros a. destruct (Z.leb_spec 4 a); destruct (Z.leb_spec a 7); cbn [andb].
    - replace a with (4 + (a - 4)) at 1 by lia.
      apply read_put_long_inside. lia.
    - apply read_put_long_other. lia.
    - apply read_put_long_other. lia.
    - apply read_put_long_other. lia. }
  split; [exact Hcell |].
  split.
  { unfold EEPROM.get_bits. rewrite !Hcell. reflexivity. }
  split; [apply get_long_put_long, next_index_long |].
  subst st. rewrite run_trace, filter_app, Hp0.
  destruct (tare_timeout boot); [reflexivity |].
  rewrite samples_events_no_put. reflexivity.
Qed.

(** X2: after [setup], and after any polls, exactly one of the two pins of
    the status light is high: the indicator is healthy or unhealthy, never
    dark and never both. *)
Theorem status_light_pins_complementary :
  forall (fmt : F32.float -> Z -> string) (boot : boot_env)
         (envs : list loop_env) (e : EEPROM.eeprom),
    let st := final (run fmt boot envs (power_on e)) in
    red_level st = negb (green_level st) /\
    indicator st <> Undriven /\
    (indicator st = Healthy <-> green_level st = true).
Proof.
  intros fmt boot envs e st.
  destruct (run_frame fmt boot envs e) as (R & G & _).
  destruct (setup_session boot e) as (_ & _ & _ & _ & C).
  fold st in R, G. rewrite <- R, <- G in C.
  unfold indicator. rewrite C.
  destruct (green_level st); cbn; repeat split; congruence.
Qed.

(** ** The session index over successive boots *)

Lemma next_index_below_99 (v : Z) :
  Int.LONG_MIN <= v <= 98 -> next_index v = v + 1.
Proof.
  intros H. unfold next_index.
  rewrite wrap_long_id
    by (unfold Int.in_long, Int.LONG_MIN, Int.LONG_MAX in *; lia).
  destruct (Z.gtb_spec (v + 1) 99); [lia | reflexivity].
Qed.

Lemma next_index_from_99_up (v : Z) :
  99 <= v < Int.LONG_MAX -> next_index v = 0.
Proof.
  intros H. unfold next_index.
  rewrite wrap_long_id
    by (unfold Int.in_long, Int.LONG_MIN, Int.LONG_MAX in *; lia).
  destruct (Z.gtb_spec (v + 1) 99); [reflexivity | lia].
Qed.

Lemma iter_next_index_in_range (n : nat) (v : Z) :
  0 <= v <= 99 -> Nat.iter n next_index v = (v + Z.of_nat n) mod 100.
Proof.
  intros H. induction n as [| n IH].
  - change (Nat.iter 0 next_index v) with v.
    rewrite Z.add_0_r, Z.mod_small by lia. reflexivity.
  - rewrite Nat.iter_succ, IH.
    rewrite next_index_in_range
      by (pose proof (Z.mod_pos_bound (v + Z.of_nat n) 100 ltac:(lia)); lia).
    rewrite Zplus_mod_idemp_l. f_equal. lia.
Qed.

Lemma iter_next_index_negative (n : nat) (v : Z) :
  Int.LONG_MIN <= v < 0 -> Z.of_nat n <= - v ->
  Nat.iter n next_index v = v + Z.of_nat n.
Proof.
  intros Hv. induction n as [| n IH]; intros Hn.
  - change (Nat.iter 0 next_index v) with v. lia.
  - rewrite Nat.iter_succ, IH by lia.
    rewrite next_index_below_99 by lia. lia.
Qed.

Lemma session_stored (fmt : F32.float -> Z -> string) (e : EEPROM.eeprom)
    (s : boot_env * list loop_env) :
  EEPROM.get_long (session fmt e s) 4 = next_index (EEPROM.get_long e 4).
Proof.
  unfold session.
  destruct (run_frame fmt (fst s) (snd s) e) as (_ & _ & _ & _ & He).
  destruct (setup_session (fst s) e) as (_ & _ & He0 & _).
  rewrite He, He0. apply get_long_put_long, next_index_long.
Qed.

Lemma fold_left_cons_eq {A B : Type} (f : A -> B -> A) (x : B) (l : list B)
    (a : A) :
  fold_left f (x :: l) a = fold_left f l (f a x).
Proof. reflexivity. Qed.

Lemma boots_cons (fmt : F32.float -> Z -> string)
    (s : boot_env * list loop_env) (rest : list (boot_env * list loop_env))
    (e : EEPROM.eeprom) :
  boots fmt (s :: rest) e = boots fmt rest (session fmt e s).
Proof. unfold boots. apply fold_left_cons_eq. Qed.

Lemma boots_stored (fmt : F32.float -> Z -> string)
    (sessions : list (boot_env * list loop_env)) (e : EEPROM.eeprom) :
  EEPROM.get_long (boots fmt sessions e) 4
  = Nat.iter (List.length sessions) next_index (EEPROM.get_long e 4).
Proof.
  revert e. induction sessions as [| s rest IH]; intros e; [reflexivity |].
  rewrite boots_cons.
  pose proof (session_stored fmt e s) as Hs.
  set (e' := session fmt e s) in *. clearbody e'.
  rewrite IH, Hs. symmetry.
  exact (Nat.iter_succ_r (List.length rest) Z next_index (EEPROM.get_long e 4)).
Qed.

(** X3: the stored session index counts the boots modulo 100.  Starting from
    a stored v in [0,99], after n sessions (each a boot followed by any polls
    and a reset, whatever the devices answer) the EEPROM holds (v+n) mod 100;
    it stays within [0,99], and 100 sessions bring it back to v. *)
Theorem session_index_counts_boots :
  forall (fmt : F32.float -> Z -> string)
         (sessions : list (boot_env * list loop_env))
         (e : EEPROM.eeprom) (v : Z),
    EEPROM.get_long e (calVal_eepromAdress + 4) = v ->
    0 <= v <= 99 ->
    let stored :=
      EEPROM.get_long (boots fmt sessions e) (calVal_eepromAdress + 4) in
    stored = (v + Z.of_nat (List.length sessions)) mod 100 /\
    0 <= stored <= 99 /\
    (List.length sessions = 100%nat -> stored = v).
Proof.
  intros fmt sessions e v Hv Hr stored. subst stored.
  change (calVal_eepromAdress + 4) with 4 in *.
  rewrite boots_stored, Hv, iter_next_index_in_range by exact Hr.
  split; [reflexivity |].
  split; [pose proof (Z.mod_pos_bound (v + Z.of_nat (List.length sessions)) 100
                        ltac:(lia)); lia |].
  intros ->. change (Z.of_nat 100) with (1 * 100).
  rewrite Z.mod_add by lia. apply Z.mod_small. lia.
Qed.

Lemma session_index_counts_boots_witness :
  let sessions := [(boot_ok, [poll_card_ok]); (boot_no_card, []);
                   (boot_tare_timeout, [poll_card_fails])] in
  let stored :=
    EEPROM.get_long (boots String_float_table sessions eeprom_99)
      (calVal_eepromAdress + 4) in
  stored = (99 + Z.of_nat (List.length sessions)) mod 100 /\
  0 <= stored <= 99 /\
  (List.length sessions = 100%nat -> stored = 99).
Proof.
  apply (session_index_counts_boots String_float_table
           [(boot_ok, [poll_card_ok]); (boot_no_card, []);
            (boot_tare_timeout, [poll_card_fails])] eeprom_99 99).
  - reflexivity.
  - lia.
Defined.

(** X4: a stored value outside [0,99] is not rejected.  From 99 or more
    (below LONG_MAX) the next boot stores 0.  From a negative v the index
    climbs by one per boot: after n <= -v sessions the EEPROM holds v+n, so
    the index is negative for the first -v-1 sessions and reaches 0 at
    session number -v. *)
Theorem stored_index_out_of_range :
  forall (fmt : F32.float -> Z -> string)
         (sessions : list (boot_env * list loop_env))
         (e : EEPROM.eeprom) (v : Z),
    EEPROM.get_long e (calVal_eepromAdress + 4) = v ->
    let n := Z.of_nat (List.length sessions) in
    let stored :=
      EEPROM.get_long (boots fmt sessions e) (calVal_eepromAdress + 4) in
    (99 <= v < Int.LONG_MAX -> 1 <= n -> stored = (n - 1) mod 100) /\
    (v < 0 -> n <= - v -> stored = v + n).
Proof.
  intros fmt sessions e v Hv n stored. subst stored n.
  change (calVal_eepromAdress + 4) with 4 in *.
  rewrite boots_stored, Hv. split.
  - intros Hhigh Hn. destruct sessions as [| s rest]; [cbn in Hn; lia |].
    cbn [List.length]. rewrite Nat.iter_succ_r.
    rewrite next_index_from_99_up by exact Hhigh.
    rewrite iter_next_index_in_range by lia. f_equal. lia.
  - intros Hneg Hn. apply iter_next_index_negative; [| exact Hn].
    pose proof (wrap_long_range (EEPROM.get_bits e 4)) as R.
    unfold EEPROM.get_long in Hv. rewrite Hv in R.
    unfold Int.in_long in R. lia.
Qed.

Lemma stored_index_out_of_range_witness :
  let sessions := [(boot_ok, [poll_card_ok]); (boot_no_card, [])] in
  let n := Z.of_nat (List.length sessions) in
  let stored :=
    EEPROM.get_long (boots String_float_table sessions eeprom_minus_6)
      (calVal_eepromAdress + 4) in
  (99 <= -6 < Int.LONG_MAX -> 1 <= n -> stored = (n - 1) mod 100) /\
  (-6 < 0 -> n <= - -6 -> stored = -6 + n).
Proof.
  apply (stored_index_out_of_range String_float_table
           [(boot_ok, [poll_card_ok]); (boot_no_card, [])] eeprom_minus_6 (-6)).
  reflexivity.
Defined.

(** ** What a session leaves on the card, the console and the display *)

Lemma setup_file_lines (boot : boot_env) (e : EEPROM.eeprom) :
  let idx := next_index (EEPROM.get_long e 4) in
  file_lines (trace (final (setup boot (power_on e))))
  = if open_write_ok boot
    then [(filename_of_index idx, ("Start of test " ++ Dec.ltoa idx)%string)]
    else [].
Proof.
  destruct boot as [b1 b2 b3 b4]; cbv zeta.
  destruct b1, b2, b3, b4; exec_setup; reflexivity.
Qed.

Lemma setup_serial_lines (boot : boot_env) (e : EEPROM.eeprom) :
  let fn := filename_of_index (next_index (EEPROM.get_long e 4)) in
  serial_lines (trace (final (setup boot (power_on e))))
  = [EmptyString; "SD card starting..."%string]
    ++ (if sd_begin_ok boot then [] else ["SD initialization failed!"%string])
    ++ ["SD initialization done."%string;
        ("Attempting to open file: " ++ fn ++ " --> "
         ++ (if open_write_ok boot then "1" else "0"))%string;
        if open_write_ok boot then "Open SD file passed!"%string
        else "Open SD file failed!"%string;
        "LCD starting..."%string;
        "HX711 starting..."%string;
        if tare_timeout boot
        then "Timeout, check MCU>HX711 wiring and pin designations"%string
        else "HX711 startup is complete"%string].
Proof.
  destruct boot as [b1 b2 b3 b4]; cbv zeta.
  destruct b1, b2, b3, b4; exec_setup; reflexivity.
Qed.

Lemma setup_lcd_events (boot : boot_env) (e : EEPROM.eeprom) :
  let fn := filename_of_index (next_index (EEPROM.get_long e 4)) in
  filter is_lcd_event (trace (final (setup boot (power_on e))))
  = [Lcd_init; Lcd_backlight; Lcd_setCursor 0 0;
     Lcd_print (if open_read_ok boot then "Writing: " else "Failed: ");
     Lcd_print fn]
    ++ (if tare_timeout boot
        then [Lcd_setCursor 0 0; Lcd_print "LOAD CELL INIT FAIL!"] else []).
Proof.
  destruct boot as [b1 b2 b3 b4]; cbv zeta.
  destruct b1, b2, b3, b4; exec_setup; reflexivity.
Qed.

Lemma next_index_le_99 (v : Z) : next_index v <= 99.
Proof.
  unfold next_index.
  destruct (Z.gtb_spec (Int.wrap_long (v + 1)) 99); lia.
Qed.

Lemma filename_length_in_range (i : Z) :
  0 <= i <= 99 -> String.length (filename_of_index i) = 11%nat.
Proof.
  intros H. rewrite filename_two_digits by exact H. reflexivity.
Qed.

Lemma no_open_no_file_sample (envs : list loop_env) (ready : bool) (tv : Z) :
  forallb (fun env => negb (open_ok env)) envs = true ->
  filter (fun s : Z * F32.float * bool => snd s) (accepted_samples ready tv envs)
  = [].
Proof.
  revert ready tv. induction envs as [| env rest IH]; intros ready tv H;
    [reflexivity |].
  cbn [forallb] in H. apply andb_prop in H. destruct H as [Ho Hrest].
  cbn [accepted_samples].
  destruct ((update env || ready)
            && (Int.wrap_ulong (millis_test env)
                  >? Int.wrap_ulong (tv + serialPrintInterval))).
  - cbn [filter snd]. destruct (open_ok env); [discriminate Ho |].
    apply IH, Hrest.
  - apply IH, Hrest.
Qed.

(** X5: the lines a session writes to the card.  If the boot's open for
    writing succeeded the first line is "Start of test <index>"; then, unless
    the tare timed out, one line per accepted sample whose open succeeded, in
    the order accepted.  Every line goes to the one file named after the
    advanced index; a boot whose tare timed out leaves the start marker
    alone. *)
Theorem session_file_contents :
  forall (fmt : F32.float -> Z -> string) (boot : boot_env)
         (envs : list loop_env) (e : EEPROM.eeprom),
    let st := final (run fmt boot envs (power_on e)) in
    let fn := filename_of_index (index st) in
    index st = next_index (EEPROM.get_long e (calVal_eepromAdress + 4)) /\
    file_lines (trace st)
    = (if open_write_ok boot
       then [(fn, ("Start of test " ++ Dec.ltoa (index st))%string)] else [])
      ++ (if tare_timeout boot then []
          else map (fun s => (fn, sample_line fmt (fst (fst s)) (snd (fst s))))
                 (filter (fun s => snd s) (accepted_samples false 0 envs))).
Proof.
  intros fmt boot envs e st fn. subst fn.
  destruct (run_frame fmt boot envs e) as (_ & _ & _ & Hi & _).
  destruct (setup_session boot e) as (Hi0 & Hf0 & _).
  fold st in Hi. rewrite Hi0 in Hi.
  change (calVal_eepromAdress + 4) with 4.
  split; [exact Hi |].
  subst st. rewrite run_trace, file_lines_app, setup_file_lines, Hi, Hf0.
  destruct (tare_timeout boot); [reflexivity |].
  rewrite samples_events_file. reflexivity.
Qed.

(** X6: with no usable card (the boot's open for writing fails and so does
    every open in the loop) the run writes no line to any file and the
    indicator is unhealthy, while [Serial] still receives the line of every
    accepted sample after the boot messages. *)
Theorem run_without_card :
  forall (fmt : F32.float -> Z -> string) (boot : boot_env)
         (envs : list loop_env) (e : EEPROM.eeprom),
    open_write_ok boot = false ->
    forallb (fun env => negb (open_ok env)) envs = true ->
    let st0 := final (setup boot (power_on e)) in
    let st := final (run fmt boot envs (power_on e)) in
    file_lines (trace st) = [] /\
    indicator st = Unhealthy /\
    serial_lines (trace st)
    = serial_lines (trace st0)
      ++ (if tare_timeout boot then []
          else map (fun s => sample_line fmt (fst (fst s)) (snd (fst s)))
                 (accepted_samples false 0 envs)).
Proof.
  intros fmt boot envs e Hw Ho st0 st. subst st st0.
  rewrite run_trace, file_lines_app, serial_lines_app, setup_file_lines, Hw.
  split; [| split].
  - destruct (tare_timeout boot); [reflexivity |].
    rewrite samples_events_file, no_open_no_file_sample by exact Ho.
    reflexivity.
  - destruct (run_frame fmt boot envs e) as (R & G & _).
    unfold indicator. rewrite R, G.
    destruct boot as [b1 b2 b3 b4]. cbn [open_write_ok] in Hw. subst b2.
    destruct b1, b3, b4; exec_setup; reflexivity.
  - destruct (tare_timeout boot); [reflexivity |].
    rewrite samples_events_serial. reflexivity.
Qed.

Lemma run_without_card_witness :
  let st0 := final (setup boot_no_card (power_on eeprom_99)) in
  let st := final (run String_float_table boot_no_card
                     [poll_card_fails; poll_idle] (power_on eeprom_99)) in
  file_lines (trace st) = [] /\
  indicator st = Unhealthy /\
  serial_lines (trace st)
  = serial_lines (trace st0)
    ++ (if tare_timeout boot_no_card then []
        else map (fun s => sample_line String_float_table
                             (fst (fst s)) (snd (fst s)))
               (accepted_samples false 0 [poll_card_fails; poll_idle])).
Proof.
  apply (run_without_card String_float_table boot_no_card
           [poll_card_fails; poll_idle] eeprom_99).
  - reflexivity.
  - reflexivity.
Defined.

(** X7: what the boot shows on the display.  At the top left it prints
    "Writing: " or "Failed: " according to the read-only open of
    [init_Display] alone (not the open that sets the status light), followed
    by the file name; after a tare timeout it prints "LOAD CELL INIT FAIL!"
    from the top left again.  With a non-negative index the boot message
    fits the 20 columns, and the failure message, 20 characters long, covers
    all of it. *)
Theorem boot_display_message :
  forall (boot : boot_env) (e : EEPROM.eeprom),
    let st0 := final (setup boot (power_on e)) in
    let message :=
      ((if open_read_ok boot then "Writing: " else "Failed: ")
       ++ filename st0)%string in
    filter is_lcd_event (trace st0)
    = [Lcd_init; Lcd_backlight; Lcd_setCursor 0 0;
       Lcd_print (if open_read_ok boot then "Writing: " else "Failed: ");
       Lcd_print (filename st0)]
      ++ (if tare_timeout boot
          then [Lcd_setCursor 0 0; Lcd_print "LOAD CELL INIT FAIL!"] else []) /\
    (0 <= index st0 ->
     (String.length message <= lcd_cols)%nat /\
     (String.length message <= String.length "LOAD CELL INIT FAIL!")%nat /\
     String.length "LOAD CELL INIT FAIL!" = lcd_cols).
Proof.
  intros boot e st0 message. subst message.
  destruct (setup_session boot e) as (Hi0 & Hf0 & _). fold st0 in Hi0, Hf0.
  split.
  - subst st0. rewrite setup_lcd_events, <- Hf0. reflexivity.
  - intros Hpos. rewrite Hf0.
    pose proof (next_index_le_99 (EEPROM.get_long e 4)) as Hle.
    rewrite Hi0 in Hpos.
    pose proof (filename_length_in_range _ (conj Hpos Hle)) as Hlen.
    unfold lcd_cols.
    destruct (open_read_ok boot); cbn [String.append String.length];
      rewrite Hlen; lia.
Qed.

Lemma boot_display_message_witness :
  let st0 := final (setup boot_ok (power_on eeprom_99)) in
  let message :=
    ((if open_read_ok boot_ok then "Writing: " else "Failed: ")
     ++ filename st0)%string in
  filter is_lcd_event (trace st0)
  = [Lcd_init; Lcd_backlight; Lcd_setCursor 0 0;
     Lcd_print (if open_read_ok boot_ok then "Writing: " else "Failed: ");
     Lcd_print (filename st0)]
    ++ (if tare_timeout boot_ok
        then [Lcd_setCursor 0 0; Lcd_print "LOAD CELL INIT FAIL!"] else []) /\
  (0 <= index st0 ->
   (String.length message <= lcd_cols)%nat /\
   (String.length message <= String.length "LOAD CELL INIT FAIL!")%nat /\
   String.length "LOAD CELL INIT FAIL!" = lcd_cols).
Proof.
  exact (boot_display_message boot_ok eeprom_99).
Defined.

(** X8: the boot's lines on [Serial], in order.  "SD initialization failed!"
    appears when [SD.begin] fails, and "SD initialization done." follows in
    either case; the open of the session file is reported with the file name
    and 1 or 0; the last line reports the tare timeout or the completed
    start-up. *)
Theorem boot_serial_log :
  forall (boot : boot_env) (e : EEPROM.eeprom),
    let st0 := final (setup boot (power_on e)) in
    serial_lines (trace st0)
    = [EmptyString; "SD card starting..."%string]
      ++ (if sd_begin_ok boot then [] else ["SD initialization failed!"%string])
      ++ ["SD initialization done."%string;
          ("Attempting to open file: " ++ filename st0 ++ " --> "
           ++ (if open_write_ok boot then "1" else "0"))%string;
          if open_write_ok boot then "Open SD file passed!"%string
          else "Open SD file failed!"%string;
          "LCD starting..."%string;
          "HX711 starting..."%string;
          if tare_timeout boot
          then "Timeout, check MCU>HX711 wiring and pin designations"%string
          else "HX711 startup is complete"%string].
Proof.
  intros boot e st0.
  destruct (setup_session boot e) as (_ & Hf0 & _). fold st0 in Hf0.
  rewrite Hf0. subst st0. apply setup_serial_lines.
Qed.

(** ** The sample scheduler *)

Lemma wrap_ulong_idem (z : Z) :
  Int.wrap_ulong (Int.wrap_ulong z + serialPrintInterval) = Int.wrap_ulong z.
Proof.
  unfold Int.wrap_ulong, serialPrintInterval. rewrite Z.add_0_r.
  apply Z.mod_mod. lia.
Qed.

Lemma wrap_ulong_max (z : Z) : Int.wrap_ulong z <= 2 ^ 32 - 1.
Proof.
  unfold Int.wrap_ulong. pose proof (Z.mod_pos_bound z (2 ^ 32) ltac:(lia)). lia.
Qed.

Lemma accepted_samples_blocked (envs : list loop_env) (ready : bool) (tv : Z) :
  forallb (fun env => Int.wrap_ulong (millis_test env)
                        <=? Int.wrap_ulong (tv + serialPrintInterval)) envs
  = true ->
  accepted_samples ready tv envs = [].
Proof.
  revert ready. induction envs as [| env rest IH]; intros ready H;
    [reflexivity |].
  cbn [forallb] in H. apply andb_prop in H. destruct H as [Hle Hrest].
  apply Z.leb_le in Hle. cbn [accepted_samples].
  destruct (Z.gtb_spec (Int.wrap_ulong (millis_test env))
              (Int.wrap_ulong (tv + serialPrintInterval))); [lia |].
  rewrite andb_false_r. apply IH, Hrest.
Qed.

Lemma after_loops_blocked (fmt : F32.float -> Z -> string)
    (envs : list loop_env) (st : state) :
  forallb (fun env => Int.wrap_ulong (millis_test env)
                        <=? Int.wrap_ulong (t st + serialPrintInterval)) envs
  = true ->
  t (after_loops fmt envs st) = t st /\
  newDataReady (after_loops fmt envs st)
  = (newDataReady st || existsb update envs).
Proof.
  revert st. induction envs as [| env rest IH]; intros st H.
  - cbn. rewrite orb_false_r. split; reflexivity.
  - cbn [forallb] in H. apply andb_prop in H. destruct H as [Hle Hrest].
    apply Z.leb_le in Hle.
    cbn [after_loops fold_left existsb].
    change (fold_left (fun s env0 => after_loop fmt env0 s) rest
              (after_loop fmt env st))
      with (after_loops fmt rest (after_loop fmt env st)).
    assert (Ha : accepts env st = false).
    { unfold accepts.
      destruct (Z.gtb_spec (Int.wrap_ulong (millis_test env))
                  (Int.wrap_ulong (t st + serialPrintInterval))); [lia |].
      apply andb_false_r. }
    assert (Ht : t (after_loop fmt env st) = t st)
      by (unfold after_loop; rewrite Ha; reflexivity).
    assert (Hn : newDataReady (after_loop fmt env st)
                 = (update env || newDataReady st))
      by (unfold after_loop; rewrite Ha; reflexivity).
    destruct (IH (after_loop fmt env st)) as [IHt IHn];
      [rewrite Ht; exact Hrest |].
    rewrite IHt, IHn, Ht, Hn. split; [reflexivity |].
    destruct (update env), (newDataReady st); reflexivity.
Qed.

(** X9: [loop] lets a reading through only when [millis()] is strictly above
    [t].  Through any sequence of polls whose clock readings are all at or
    below [t] nothing is fetched, printed or written, [t] stays, and the
    pending flag is set as soon as one poll reported a reading and stays
    set. *)
Theorem no_sample_until_clock_passes :
  forall (fmt : F32.float -> Z -> string) (envs : list loop_env) (st : state),
    forallb (fun env => Int.wrap_ulong (millis_test env)
                          <=? Int.wrap_ulong (t st + serialPrintInterval)) envs
    = true ->
    let st' := final (loops fmt envs st) in
    emitted (loops fmt envs) st = [] /\
    t st' = t st /\
    newDataReady st' = (newDataReady st || existsb update envs).
Proof.
  intros fmt envs st H st'. subst st'.
  rewrite loops_emitted, loops_eq. cbn [final].
  rewrite accepted_samples_blocked by exact H.
  split; [reflexivity |]. apply after_loops_blocked, H.
Qed.

Lemma no_sample_until_clock_passes_witness :
  let st := final (loop String_float_table poll_card_ok
                     (final (setup boot_ok (power_on eeprom_99)))) in
  let envs := [poll_card_ok; poll_card_fails] in
  let st' := final (loops String_float_table envs st) in
  emitted (loops String_float_table envs) st = [] /\
  t st' = t st /\
  newDataReady st' = (newDataReady st || existsb update envs).
Proof.
  apply (no_sample_until_clock_passes String_float_table
           [poll_card_ok; poll_card_fails]
           (final (loop String_float_table poll_card_ok
                     (final (setup boot_ok (power_on eeprom_99)))))).
  reflexivity.
Defined.

(** X10: once [t] holds the largest [unsigned long], 4294967295, the test
    [millis() > t] can never hold again: whatever the later polls are, no
    sample is accepted and nothing more is logged or displayed. *)
Theorem logging_stops_at_clock_maximum :
  forall (fmt : F32.float -> Z -> string) (envs : list loop_env) (st : state),
    t st = 2 ^ 32 - 1 ->
    emitted (loops fmt envs) st = [] /\
    t (final (loops fmt envs st)) = 2 ^ 32 - 1.
Proof.
  intros fmt envs st Ht.
  assert (H : forallb (fun env => Int.wrap_ulong (millis_test env)
                         <=? Int.wrap_ulong (t st + serialPrintInterval)) envs
              = true).
  { apply forallb_forall. intros env _. apply Z.leb_le. rewrite Ht.
    change (Int.wrap_ulong (2 ^ 32 - 1 + serialPrintInterval))
      with (2 ^ 32 - 1).
    apply wrap_ulong_max. }
  rewrite loops_emitted, loops_eq. cbn [final].
  rewrite accepted_samples_blocked by exact H.
  split; [reflexivity |].
  rewrite (proj1 (after_loops_blocked fmt envs st H)). exact Ht.
Qed.

Lemma logging_stops_at_clock_maximum_witness :
  let st := mkState eeprom_99 (2 ^ 32 - 1) 0 "TEST_00.txt" None false
              false true [] in
  emitted (loops String_float_table [poll_card_ok; poll_later]) st = [] /\
  t (final (loops String_float_table [poll_card_ok; poll_later] st))
  = 2 ^ 32 - 1.
Proof.
  apply (logging_stops_at_clock_maximum String_float_table
           [poll_card_ok; poll_later]
           (mkState eeprom_99 (2 ^ 32 - 1) 0 "TEST_00.txt" None false
              false true [])).
  reflexivity.
Defined.

Lemma stamps_increasing (envs : list loop_env) (ready : bool) (tv : Z) :
  forallb (fun env => Int.wrap_ulong (millis_test env)
                        <=? Int.wrap_ulong (millis_stamp env)) envs = true ->
  Forall (fun s => Int.wrap_ulong (tv + serialPrintInterval) < s)
    (stamps (accepted_samples ready tv envs)) /\
  StronglySorted Z.lt (stamps (accepted_samples ready tv envs)).
Proof.
  revert ready tv. induction envs as [| env rest IH]; intros ready tv H.
  - split; constructor.
  - cbn [forallb] in H. apply andb_prop in H. destruct H as [Hle Hrest].
    apply Z.leb_le in Hle. cbn [accepted_samples].
    destruct (update env || ready); cbn [andb]; [| apply IH, Hrest].
    destruct (Z.gtb_spec (Int.wrap_ulong (millis_test env))
                (Int.wrap_ulong (tv + serialPrintInterval))) as [G | G];
      [| apply IH, Hrest].
    cbn [stamps map fst].
    destruct (IH false (Int.wrap_ulong (millis_stamp env)) Hrest) as [F S].
    rewrite wrap_ulong_idem in F. fold (stamps
      (accepted_samples false (Int.wrap_ulong (millis_stamp env)) rest)).
    split.
    + constructor; [lia |].
      eapply Forall_impl; [| exact F]. cbn beta. intros s Hs. lia.
    + constructor; [exact S | exact F].
Qed.

(** X11: when the clock does not run backwards within a pass (the second
    [millis()] is not below the first), the time stamps of the accepted
    samples are strictly increasing and all above the [t] the polls started
    from: no two logged lines carry the same time, and at most one sample is
    accepted per millisecond. *)
Theorem accepted_time_stamps_increase :
  forall (fmt : F32.float -> Z -> string) (envs : list loop_env) (st : state),
    forallb (fun env => Int.wrap_ulong (millis_test env)
                          <=? Int.wrap_ulong (millis_stamp env)) envs = true ->
    let samples := accepted_samples (newDataReady st) (t st) envs in
    serial_lines (emitted (loops fmt envs) st)
    = map (fun s => sample_line fmt (fst (fst s)) (snd (fst s))) samples /\
    StronglySorted Z.lt (stamps samples) /\
    Forall (fun s => Int.wrap_ulong (t st + serialPrintInterval) < s)
      (stamps samples).
Proof.
  intros fmt envs st H samples. subst samples.
  rewrite loops_emitted, samples_events_serial.
  split; [reflexivity |].
  destruct (stamps_increasing envs (newDataReady st) (t st) H) as [F S].
  split; assumption.
Qed.

Lemma accepted_time_stamps_increase_witness :
  let st := final (setup boot_ok (power_on eeprom_99)) in
  let envs := [poll_too_early; poll_later; poll_card_ok; poll_idle] in
  let samples := accepted_samples (newDataReady st) (t st) envs in
  serial_lines (emitted (loops String_float_table envs) st)
  = map (fun s => sample_line String_float_table (fst (fst s)) (snd (fst s)))
      samples /\
  StronglySorted Z.lt (stamps samples) /\
  Forall (fun s => Int.wrap_ulong (t st + serialPrintInterval) < s)
    (stamps samples).
Proof.
  apply (accepted_time_stamps_increase String_float_table
           [poll_too_early; poll_later; poll_card_ok; poll_idle]
           (final (setup boot_ok (power_on eeprom_99)))).
  reflexivity.
Defined.

(** X12: a reading reported while the clock test fails is not lost and not
    fetched yet: the pending flag stays set, and the next pass whose clock
    reading is above [t] accepts a sample even if [LoadCell.update()] reports
    nothing new then.  The sample logged carries the reading and the time of
    that later pass. *)
Theorem pending_reading_taken_at_next_tick :
  forall (fmt : F32.float -> Z -> string) (env1 env2 : loop_env) (st : state),
    update env1 = true ->
    accepts env1 st = false ->
    Int.wrap_ulong (millis_test env2)
    > Int.wrap_ulong (t st + serialPrintInterval) ->
    let st1 := final (loop fmt env1 st) in
    emitted (loop fmt env1) st = [] /\
    newDataReady st1 = true /\
    accepts env2 st1 = true /\
    emitted (loops fmt [env1; env2]) st
    = sample_events fmt (filename st) (Int.wrap_ulong (millis_stamp env2))
        (getData env2) (open_ok env2).
Proof.
  intros fmt env1 env2 st Hu Ha Hc st1. subst st1.
  rewrite loop_emitted, loops_emitted, loop_eq, Ha. cbn [final].
  split; [reflexivity |].
  assert (Hg : (Int.wrap_ulong (millis_test env2)
                  >? Int.wrap_ulong (t st + serialPrintInterval)) = true)
    by (apply Z.gtb_lt; lia).
  unfold after_loop. rewrite Ha. cbn [newDataReady t]. rewrite Hu.
  split; [reflexivity |].
  split.
  - unfold accepts. cbn [newDataReady t]. rewrite Hg, orb_true_r. reflexivity.
  - cbn [accepted_samples]. fold (accepts env1 st). rewrite Ha, Hu.
    cbn [orb]. rewrite Hg, orb_true_r. cbn [andb samples_events flat_map fst snd].
    apply app_nil_r.
Qed.

Lemma pending_reading_taken_at_next_tick_witness :
  let st := final (setup boot_ok (power_on eeprom_99)) in
  let st1 := final (loop String_float_table poll_too_early st) in
  emitted (loop String_float_table poll_too_early) st = [] /\
  newDataReady st1 = true /\
  accepts poll_later st1 = true /\
  emitted (loops String_float_table [poll_too_early; poll_later]) st
  = sample_events String_float_table (filename st)
      (Int.wrap_ulong (millis_stamp poll_later))
      (getData poll_later) (open_ok poll_later).
Proof.
  apply (pending_reading_taken_at_next_tick String_float_table
           poll_too_early poll_later
           (final (setup boot_ok (power_on eeprom_99)))).
  - reflexivity.
  - reflexivity.
  - reflexivity.
Defined.

(** ** Reading the decimal rendering back *)

Lemma digit_code (d : Z) :
  0 <= d < 10 -> Z.of_nat (nat_of_ascii (Dec.digit d)) - 48 = d.
Proof.
  intros H. unfold Dec.digit. rewrite nat_ascii_embedding by lia. lia.
Qed.

Lemma digit_not_minus (d : Z) :
  0 <= d < 10 -> Ascii.eqb (Dec.digit d) "-"%char = false.
Proof.
  intros H. apply Ascii.eqb_neq. intros E.
  apply (f_equal nat_of_ascii) in E. unfold Dec.digit in E.
  rewrite nat_ascii_embedding in E by lia.
  change (nat_of_ascii "-"%char) with 45%nat in E. lia.
Qed.

Lemma utoa_rec_app (fuel : nat) (n : Z) (acc s : string) :
  (Dec.utoa_rec fuel n acc ++ s)%string = Dec.utoa_rec fuel n (acc ++ s)%string.
Proof.
  revert n acc. induction fuel as [| f IH]; intros n acc; [reflexivity |].
  cbn [Dec.utoa_rec]. destruct (n / 10 =? 0); [reflexivity |].
  rewrite IH. reflexivity.
Qed.

Lemma parse_digits_utoa (fuel : nat) (n : Z) (acc : string) :
  0 <= n < 10 ^ Z.of_nat fuel ->
  parse_digits (Dec.utoa_rec fuel n acc) 0 = parse_digits acc n.
Proof.
  revert n acc. induction fuel as [| f IH]; intros n acc H.
  - cbn in H. cbn [Dec.utoa_rec]. replace n with 0 by lia. reflexivity.
  - rewrite Nat2Z.inj_succ, Z.pow_succ_r in H by lia.
    pose proof (Z.mod_pos_bound n 10 ltac:(lia)) as Hm.
    pose proof (Z.div_mod n 10 ltac:(lia)) as Hd.
    cbn [Dec.utoa_rec]. destruct (Z.eqb_spec (n / 10) 0) as [E | E].
    + cbn [parse_digits]. rewrite digit_is_digit, digit_code by lia.
      f_equal. lia.
    + rewrite IH.
      * cbn [parse_digits]. rewrite digit_is_digit, digit_code by lia.
        f_equal. lia.
      * split; [apply Z.div_pos; lia | apply Z.div_lt_upper_bound; lia].
Qed.

Lemma utoa_rec_head (fuel : nat) (n : Z) (acc : string) :
  0 <= n ->
  exists d rest, 0 <= d < 10 /\
                 Dec.utoa_rec (S fuel) n acc = String (Dec.digit d) rest.
Proof.
  revert n acc. induction fuel as [| f IH]; intros n acc H.
  - exists (n mod 10). cbn [Dec.utoa_rec].
    pose proof (Z.mod_pos_bound n 10 ltac:(lia)).
    destruct (n / 10 =? 0); eexists; split; try reflexivity; lia.
  - pose proof (Z.mod_pos_bound n 10 ltac:(lia)).
    change (Dec.utoa_rec (S (S f)) n acc)
      with (let acc' := String (Dec.digit (n mod 10)) acc in
            if n / 10 =? 0 then acc' else Dec.utoa_rec (S f) (n / 10) acc').
    cbv zeta. destruct (n / 10 =? 0).
    + exists (n mod 10). eexists. split; [lia | reflexivity].
    + apply IH. apply Z.div_pos; lia.
Qed.

Lemma parse_digits_ultoa_then (n : Z) (s : string) :
  0 <= n < 2 ^ 32 ->
  parse_digits (Dec.ultoa n ++ s) 0 = parse_digits s n.
Proof.
  intros H. unfold Dec.ultoa. rewrite utoa_rec_app.
  apply parse_digits_utoa. change (10 ^ Z.of_nat 10) with 10000000000. lia.
Qed.

Lemma parse_long_ltoa_then (i : Z) (s : string) :
  Int.in_long i ->
  parse_digits s i = i -> parse_digits s (- i) = - i ->
  parse_long (Dec.ltoa i ++ s) = i.
Proof.
  unfold Int.in_long, Int.LONG_MIN, Int.LONG_MAX. intros H Hs Hs'.
  unfold Dec.ltoa. destruct (Z.ltb_spec i 0).
  - cbn [String.append parse_long]. change (Ascii.eqb "-" "-") with true.
    cbn iota. rewrite parse_digits_ultoa_then by lia. lia.
  - destruct (utoa_rec_head 9 i EmptyString ltac:(lia)) as (d & rest & Hd & E).
    pose proof (parse_digits_ultoa_then i s ltac:(lia)) as P.
    unfold Dec.ultoa in *. rewrite E in *.
    cbn [String.append parse_long]. rewrite digit_not_minus by exact Hd.
    cbn [String.append] in P. rewrite P. exact Hs.
Qed.

Lemma parse_long_ltoa_txt (i : Z) :
  Int.in_long i -> parse_long (Dec.ltoa i ++ ".txt") = i.
Proof.
  intros H. apply parse_long_ltoa_then; [exact H | reflexivity | reflexivity].
Qed.

Lemma filename_inj_long (i j : Z) :
  Int.in_long i -> Int.in_long j ->
  filename_of_index i = filename_of_index j -> i = j.
Proof.
  intros Hi Hj E. unfold filename_of_index in E.
  assert (Hcross : forall a b : Z,
    Int.in_long a -> Int.in_long b -> a < 10 -> 10 <= b ->
    String "0"%char (Dec.ltoa a ++ ".txt") = (Dec.ltoa b ++ ".txt")%string ->
    False).
  { intros a b Ha Hb La Lb Eab.
    apply (f_equal (fun s => parse_digits s 0)) in Eab.
    unfold Int.in_long, Int.LONG_MIN, Int.LONG_MAX in Ha, Hb.
    assert (Rb : parse_digits (Dec.ltoa b ++ ".txt") 0 = b).
    { unfold Dec.ltoa. destruct (Z.ltb_spec b 0); [lia |].
      rewrite parse_digits_ultoa_then by lia. reflexivity. }
    rewrite Rb in Eab. cbn [parse_digits] in Eab.
    change (Dec.is_digit "0") with true in Eab. cbn iota in Eab.
    change (10 * 0 + (Z.of_nat (nat_of_ascii "0") - 48)) with 0 in Eab.
    unfold Dec.ltoa in Eab. destruct (Z.ltb_spec a 0).
    - cbn [String.append parse_digits] in Eab.
      change (Dec.is_digit "-") with false in Eab. cbn iota in Eab. lia.
    - rewrite parse_digits_ultoa_then in Eab by lia.
      cbn [parse_digits] in Eab. change (Dec.is_digit ".") with false in Eab.
      cbn iota in Eab. lia. }
  destruct (Z.ltb_spec i 10), (Z.ltb_spec j 10); cbn [String.append] in E.
  - injection E as E. apply (f_equal parse_long) in E.
    rewrite !parse_long_ltoa_txt in E by assumption. exact E.
  - injection E as E. exfalso. exact (Hcross i j Hi Hj ltac:(lia) ltac:(lia) E).
  - injection E as E. exfalso. symmetry in E.
    exact (Hcross j i Hj Hi ltac:(lia) ltac:(lia) E).
  - injection E as E. apply (f_equal parse_long) in E.
    rewrite !parse_long_ltoa_txt in E by assumption. exact E.
Qed.

(** X13: the decimal rendering can be read back ([String(long)] followed by
    parsing gives the number, for every long), and two different longs never
    give the same file name: the derivation is injective on every value
    [index] can hold, not only on [0,99]. *)
Theorem filename_injective_on_all_longs :
  forall i j : Z,
    Int.in_long i -> Int.in_long j ->
    parse_long (Dec.ltoa i) = i /\
    (filename_of_index i = filename_of_index j -> i = j).
Proof.
  intros i j Hi Hj. split.
  - rewrite <- (parse_long_ltoa_then i EmptyString Hi eq_refl eq_refl) at 2.
    f_equal. clear. induction (Dec.ltoa i) as [| c s IH]; [reflexivity |].
    cbn [String.append]. rewrite <- IH. reflexivity.
  - apply filename_inj_long; assumption.
Qed.

Lemma filename_injective_on_all_longs_witness :
  parse_long (Dec.ltoa (-5)) = -5 /\
  (filename_of_index (-5) = filename_of_index 5 -> -5 = 5).
Proof.
  apply (filename_injective_on_all_longs (-5) 5).
  - unfold Int.in_long, Int.LONG_MIN, Int.LONG_MAX. lia.
  - unfold Int.in_long, Int.LONG_MIN, Int.LONG_MAX. lia.
Defined.

Lemma boots_app (fmt : F32.float -> Z -> string)
    (a b : list (boot_env * list loop_env)) (e : EEPROM.eeprom) :
  boots fmt (a ++ b) e = boots fmt b (boots fmt a e).
Proof. unfold boots. apply fold_left_app. Qed.

(** X14: sessions less than 100 boots apart never share a file name.  From a
    stored index in [0,99], the name derived after some sessions differs from
    the name derived after 1 to 99 further sessions, and is the same again
    after exactly 100 further sessions. *)
Theorem names_distinct_within_100_boots :
  forall (fmt : F32.float -> Z -> string)
         (before further : list (boot_env * list loop_env))
         (e : EEPROM.eeprom),
    0 <= EEPROM.get_long e (calVal_eepromAdress + 4) <= 99 ->
    let name := fun sessions =>
      filename_of_index
        (EEPROM.get_long (boots fmt sessions e) (calVal_eepromAdress + 4)) in
    ((0 < List.length further < 100)%nat ->
     name (before ++ further) <> name before) /\
    (List.length further = 100%nat -> name (before ++ further) = name before).
Proof.
  intros fmt before further e Hr name. subst name. cbv beta.
  change (calVal_eepromAdress + 4) with 4 in *.
  rewrite !boots_stored, length_app.
  rewrite !iter_next_index_in_range by exact Hr.
  set (v := EEPROM.get_long e 4) in *.
  set (a := Z.of_nat (List.length before)).
  rewrite Nat2Z.inj_add. fold a.
  set (b := Z.of_nat (List.length further)).
  pose proof (Z.mod_pos_bound (v + a) 100 ltac:(lia)) as Ma.
  pose proof (Z.mod_pos_bound (v + (a + b)) 100 ltac:(lia)) as Mb.
  pose proof (Z.div_mod (v + a) 100 ltac:(lia)) as Da.
  pose proof (Z.div_mod (v + (a + b)) 100 ltac:(lia)) as Db.
  split.
  - intros Hlen E.
    apply filename_inj_long in E;
      [| unfold Int.in_long, Int.LONG_MIN, Int.LONG_MAX; lia
       | unfold Int.in_long, Int.LONG_MIN, Int.LONG_MAX; lia].
    assert (0 < b < 100) by (subst b; lia). lia.
  - intros Hlen. f_equal.
    assert (b = 100) as -> by (subst b; lia).
    replace (v + (a + 100)) with (v + a + 1 * 100) by lia.
    apply Z.mod_add. lia.
Qed.

Lemma names_distinct_within_100_boots_witness :
  let before := [(boot_ok, [poll_card_ok])] in
  let further := [(boot_no_card, []); (boot_tare_timeout, [])] in
  let name := fun sessions =>
    filename_of_index
      (EEPROM.get_long (boots String_float_table sessions eeprom_99)
         (calVal_eepromAdress + 4)) in
  ((0 < List.length further < 100)%nat ->
   name (before ++ further) <> name before) /\
  (List.length further = 100%nat -> name (before ++ further) = name before).
Proof.
  apply (names_distinct_within_100_boots String_float_table
           [(boot_ok, [poll_card_ok])]
           [(boot_no_card, []); (boot_tare_timeout, [])] eeprom_99).
  change (0 <= 99 <= 99). lia.
Defined.

(** ** The width of the time row *)

Lemma utoa_rec_length_ge (fuel : nat) (n : Z) (acc : string) :
  (String.length acc <= String.length (Dec.utoa_rec fuel n acc))%nat.
Proof.
  revert n acc. induction fuel as [| f IH]; intros n acc; [apply Nat.le_refl |].
  cbn [Dec.utoa_rec]. destruct (n / 10 =? 0).
  - cbn [String.length]. lia.
  - specialize (IH (n / 10) (String (Dec.digit (n mod 10)) acc)).
    cbn [String.length] in IH. lia.
Qed.

Lemma utoa_rec_length_le (fuel k : nat) (n : Z) (acc : string) :
  (1 <= k)%nat -> 0 <= n < 10 ^ Z.of_nat k ->
  (String.length (Dec.utoa_rec fuel n acc) <= k + String.length acc)%nat.
Proof.
  revert k n acc. induction fuel as [| f IH]; intros k n acc Hk H.
  - cbn [Dec.utoa_rec]. lia.
  - cbn [Dec.utoa_rec]. destruct (Z.eqb_spec (n / 10) 0) as [E | E].
    + cbn [String.length]. lia.
    + destruct k as [| [| k']]; [lia | |].
      * exfalso. apply E. apply Z.div_small. cbn in H. lia.
      * specialize (IH (S k') (n / 10) (String (Dec.digit (n mod 10)) acc)
                      ltac:(lia)).
        cbn [String.length] in IH.
        rewrite (Nat2Z.inj_succ (S k')), Z.pow_succ_r in H by lia.
        assert (0 <= n / 10 < 10 ^ Z.of_nat (S k'))
          by (split; [apply Z.div_pos; lia | apply Z.div_lt_upper_bound; lia]).
        specialize (IH ltac:(assumption)). lia.
Qed.

Lemma utoa_rec_length_lower (fuel k : nat) (n : Z) (acc : string) :
  (k <= fuel)%nat -> 10 ^ Z.of_nat k <= n ->
  (S k + String.length acc <= String.length (Dec.utoa_rec (S fuel) n acc))%nat.
Proof.
  revert k n acc. induction fuel as [| f IH]; intros k n acc Hk H.
  - assert (k = 0%nat) as -> by lia.
    pose proof (utoa_rec_length_ge 0 (n / 10) (String (Dec.digit (n mod 10)) acc)) as G.
    cbn [Dec.utoa_rec String.length] in *.
    destruct (n / 10 =? 0); cbn [String.length]; lia.
  - change (Dec.utoa_rec (S (S f)) n acc)
      with (let acc' := String (Dec.digit (n mod 10)) acc in
            if n / 10 =? 0 then acc' else Dec.utoa_rec (S f) (n / 10) acc').
    cbv zeta. destruct k as [| k'].
    + pose proof (utoa_rec_length_ge (S f) (n / 10)
                    (String (Dec.digit (n mod 10)) acc)) as G.
      cbn [String.length] in G.
      destruct (n / 10 =? 0); cbn [String.length]; lia.
    + rewrite Nat2Z.inj_succ, Z.pow_succ_r in H by lia.
      assert (P : 0 < 10 ^ Z.of_nat k') by (apply Z.pow_pos_nonneg; lia).
      assert (D : 10 ^ Z.of_nat k' <= n / 10)
        by (apply Z.div_le_lower_bound; lia).
      destruct (Z.eqb_spec (n / 10) 0) as [E | E]; [lia |].
      specialize (IH k' (n / 10) (String (Dec.digit (n mod 10)) acc)
                    ltac:(lia) D).
      cbn [String.length] in IH. lia.
Qed.

(** X15: the time row of the display, "Time (ms): " followed by [t], fits the
    20 columns exactly as long as [t] is below 10^9 ms (about eleven and a
    half days); from 10^9 on it is 21 characters long. *)
Theorem time_row_width :
  forall (fmt : F32.float -> Z -> string) (dataIn : F32.float) (st : state),
    0 <= t st < 2 ^ 32 ->
    let row := ("Time (ms): " ++ Dec.ultoa (t st))%string in
    nth_error (emitted (write_Data_To_LCD fmt dataIn) st) 1
    = Some (Lcd_print row) /\
    (t st < 10 ^ 9 -> (String.length row <= lcd_cols)%nat) /\
    (10 ^ 9 <= t st -> String.length row = 21%nat).
Proof.
  intros fmt dataIn st Ht row. subst row.
  split; [rewrite write_Data_To_LCD_emitted; reflexivity |].
  cbn [String.append String.length]. unfold lcd_cols, Dec.ultoa.
  split.
  - intros Hlt.
    pose proof (utoa_rec_length_le 10 9 (t st) EmptyString ltac:(lia)
                  ltac:(change (10 ^ Z.of_nat 9) with (10 ^ 9); lia)) as L.
    cbn [String.length] in L. lia.
  - intros Hge.
    pose proof (utoa_rec_length_le 10 10 (t st) EmptyString ltac:(lia)
                  ltac:(change (10 ^ Z.of_nat 10) with 10000000000; lia)) as L.
    pose proof (utoa_rec_length_lower 9 9 (t st) EmptyString ltac:(lia)
                  ltac:(change (10 ^ Z.of_nat 9) with (10 ^ 9); lia)) as G.
    cbn [String.length] in L, G. lia.
Qed.

Lemma time_row_width_witness :
  let st := final (loop String_float_table poll_card_ok
                     (final (setup boot_ok (power_on eeprom_99)))) in
  let row := ("Time (ms): " ++ Dec.ultoa (t st))%string in
  nth_error (emitted (write_Data_To_LCD String_float_table F32.f7_5) st) 1
  = Some (Lcd_print row) /\
  (t st < 10 ^ 9 -> (String.length row <= lcd_cols)%nat) /\
  (10 ^ 9 <= t st -> String.length row = 21%nat).
Proof.
  apply (time_row_width String_float_table F32.f7_5
           (final (loop String_float_table poll_card_ok
                     (final (setup boot_ok (power_on eeprom_99)))))).
  change (0 <= 1200 < 2 ^ 32). lia.
Defined.

(** ** The load cell at boot *)

(** X16: at boot the load cell is begun and started with 2000 ms of
    stabilising time and tare; the calibration factor handed to it is the
    4-byte pattern the EEPROM held at cells 0..3 before the boot (the write of
    the session index earlier in the same boot does not touch it), and it is
    handed over only when the tare did not time out.  No reading is fetched
    during the boot. *)
Theorem boot_load_cell_calls :
  forall (boot : boot_env) (e : EEPROM.eeprom),
    filter is_loadcell_event (trace (final (setup boot (power_on e))))
    = [LoadCell_begin; LoadCell_start 2000 true]
      ++ (if tare_timeout boot then []
          else [LoadCell_setCalFactor (EEPROM.get_bits e calVal_eepromAdress)]).
Proof.
  intros boot e.
  assert (Hcal : EEPROM.get_bits
                   (EEPROM.put_long e 4 (next_index (EEPROM.get_long e 4))) 0
                 = EEPROM.get_bits e 0).
  { unfold EEPROM.get_bits. rewrite !read_put_long_other by lia. reflexivity. }
  destruct boot as [b1 b2 b3 b4].
  destruct b1, b2, b3, b4; exec_setup; rewrite ?Hcal; reflexivity.
Qed.
